(** * magent/model.py: the model hosting protocol

    A supervisor process owns a [ProcessingModel] handle; the model itself
    runs in a worker process executing [model_client].  Both ends talk over
    one [multiprocessing.Pipe].  This development embeds both ends and the
    pipe, and proves the properties of the protocol. *)

From Stdlib Require Import List String Ascii ZArith Bool Arith Lia.
Import ListNotations.
Open Scope string_scope.
Open Scope list_scope.
Set Warnings "-register-all".

(** ** Python values that travel on the pipe *)

(** Lists, tuples, strings, ints, bools and [None] are modelled structurally.
    Every other object (a numpy array, a float, ...) is [VObj n], identified
    by a number; what indexing it and comparing it with a string do is the
    business of its library, see [Objects] below. *)
Inductive value : Type :=
  | VNone
  | VBool (b : bool)
  | VInt (z : Z)
  | VStr (s : string)
  | VList (items : list value)
  | VTuple (items : list value)
  | VObj (n : nat).

(** Exceptions that can leave a method or the worker function. *)
Inductive exn : Type :=
  | IndexError
  | TypeError
  | UnboundLocalError (name : string)
  | AssertionError
  | ValueError
  | ModelError (n : nat).

(** How the objects [VObj n] behave where this program touches them:
    [obj[i]], and [obj == 'literal'] used as a condition (in [if] and
    [assert]).  Both may raise: a numpy array of several entries compares
    elementwise, and the truth value of the result is ambiguous
    (ValueError).  The program is verified for every such behaviour. *)
Class Objects : Type := {
  object_getitem : nat -> nat -> exn + value;
  object_eq_str : nat -> string -> exn + bool
}.

(** [v[i]] *)
Definition getitem {O : Objects} (v : value) (i : nat) : exn + value :=
  match v with
  | VList items | VTuple items =>
      match nth_error items i with
      | Some x => inr x
      | None => inl IndexError
      end
  | VStr s =>
      match String.get i s with
      | Some a => inr (VStr (String a EmptyString))
      | None => inl IndexError
      end
  | VObj n => object_getitem n i
  | VNone | VBool _ | VInt _ => inl TypeError
  end.

(** [v == 'literal'] used as a condition. *)
Definition eq_str {O : Objects} (v : value) (literal : string) : exn + bool :=
  match v with
  | VStr s => inr (String.eqb s literal)
  | VObj n => object_eq_str n literal
  | VNone | VBool _ | VInt _ | VList _ | VTuple _ => inr false
  end.

(** A formatted message [template % arg], kept unrendered. *)
Record message : Type := Fmt { template : string; arg : value }.

(** [template % arg] with a single [%s] in the template: a tuple argument is
    spread over the conversions, so it must have exactly one item. *)
Definition percent (template : string) (arg : value) : exn + message :=
  match arg with
  | VTuple [x] => inr (Fmt template x)
  | VTuple _ => inl TypeError
  | _ => inr (Fmt template arg)
  end.

(** ** The collaborators of the worker *)

(** [magent.utility.EpisodesBuffer]: the class is not part of this file, the
    worker only constructs it and calls [record_step] on it. *)
Class TransitionBuffer (B : Type) : Type := {
  EpisodesBuffer : Z -> B;
  record_step : B -> value -> value -> value -> value -> value -> exn + B
}.

Module BaseModel.

(** The interface of [class BaseModel], as the worker calls it.  [M] is the
  state of the model object; a method either raises or returns its result
  with the state it leaves behind. *)
Class t (B M : Type) : Type := {
  infer_action : M -> value -> value -> value -> value -> exn + value * M;
  train : M -> B -> value -> exn + (value * value) * M;
  save : M -> value -> value -> exn + M;
  load : M -> value -> value -> value -> exn + M
}.

(** The method bodies of [BaseModel] itself: [pass] everywhere, and
  [return 0, 0] in [train]. *)
Definition default (B : Type) : t B unit := {|
  infer_action := fun m _ _ _ _ => inr (VNone, m);
  train := fun m _ _ => inr ((VInt 0, VInt 0), m);
  save := fun m _ _ => inr m;
  load := fun m _ _ _ => inr m
|}.

End BaseModel.

(** ** A state, trace and failure monad

    Both processes are sequential programs that update their own state, act
    on the outside world and may stop early.  [X] is the type of the ways to
    stop early, [E] the type of the visible actions, [S] the state. *)

Section Monad.

Context {X E S : Type}.

Definition Proc (A : Type) : Type := S -> list E * (X + A * S).

Definition ret {A} (a : A) : Proc A := fun s => ([], inr (a, s)).

Definition bind {A C} (m : Proc A) (k : A -> Proc C) : Proc C :=
  fun s =>
    match m s with
    | (t, inl x) => (t, inl x)
    | (t, inr (a, s')) => let (t', r) := k a s' in (t ++ t', r)
    end.

Definition raise {A} (x : X) : Proc A := fun _ => ([], inl x).

Definition emit (ev : E) : Proc unit := fun s => ([ev], inr (tt, s)).

Definition lift {A} (r : X + A) : Proc A :=
  match r with
  | inl x => raise x
  | inr a => ret a
  end.

End Monad.

Arguments Proc : clear implicits.

Declare Scope proc_scope.
Delimit Scope proc_scope with proc.
Notation "x <- m ;; k" := (bind m (fun x => k))
  (at level 61, m at next level, right associativity) : proc_scope.
Notation "' p <- m ;; k" := (bind m (fun p => k))
  (at level 61, p pattern, m at next level, right associativity) : proc_scope.
Notation "m ;; k" := (bind m (fun _ => k))
  (at level 61, right associativity) : proc_scope.

(** ** The worker: [model_client] *)

(** What the worker does that is visible outside its local variables, in
    program order. *)
Inductive event (B : Type) : Type :=
  | Recv (cmd : value)
  | Send (v : value)
  | Print (msg : message)
  | NewBuffer (capacity : Z)
  | CallInfer (obs ids policy eps : value)
  | CallTrain (buffer : B) (print_every : value)
  | CallRecord (ids obs acts rewards alives : value)
  | CallSave (savedir n_iter : value)
  | CallLoad (savedir n_iter name : value).

Arguments Recv {B}.
Arguments Send {B}.
Arguments Print {B}.
Arguments NewBuffer {B}.
Arguments CallInfer {B}.
Arguments CallTrain {B}.
Arguments CallRecord {B}.
Arguments CallSave {B}.
Arguments CallLoad {B}.

(** The local variables of [model_client] that live across iterations of the
    loop.  [obs], [ids] and [acts] are unbound until the first 'act' branch
    assigns them.  The other locals ([cmd], [policy], [eps], [print_every],
    [rewards], ...) are assigned in the very iteration that reads them. *)
Record frame (B M : Type) : Type := Frame {
  model : M;
  sample_buffer : B;
  obs : option value;
  ids : option value;
  acts : option value
}.

Arguments Frame {B M}.
Arguments model {B M}.
Arguments sample_buffer {B M}.
Arguments obs {B M}.
Arguments ids {B M}.
Arguments acts {B M}.

(** How one iteration of [while True] ends. *)
Inductive control : Type := Continue | Break.

(** How the worker ends up once the commands it was sent are used up. *)
Inductive status (B M : Type) : Type :=
  | Waiting (f : frame B M)   (* blocked in [conn.recv()], pipe empty *)
  | Returned                  (* left the loop, [model_client] returned *)
  | Crashed (e : exn).        (* an exception left [model_client] *)

Arguments Waiting {B M}.
Arguments Returned {B M}.
Arguments Crashed {B M}.

Section Worker.

Context {O : Objects} {B M : Type} `{TransitionBuffer B} `{BaseModel.t B M}.

Local Open Scope proc_scope.

Local Abbreviation Worker := (Proc exn (event B) (frame B M)).

(** Reading a local variable that may still be unbound. *)
Definition local (name : string) (proj : frame B M -> option value)
  : Worker value :=
  fun f =>
    match proj f with
    | Some v => ([], inr (v, f))
    | None => ([], inl (UnboundLocalError name))
    end.

Definition set_obs (v : value) : Worker unit :=
  fun f => ([], inr (tt, Frame (model f) (sample_buffer f) (Some v) (ids f) (acts f))).

Definition set_ids (v : value) : Worker unit :=
  fun f => ([], inr (tt, Frame (model f) (sample_buffer f) (obs f) (Some v) (acts f))).

Definition set_acts (v : value) : Worker unit :=
  fun f => ([], inr (tt, Frame (model f) (sample_buffer f) (obs f) (ids f) (Some v))).

Definition set_model (m : M) : Worker unit :=
  fun f => ([], inr (tt, Frame m (sample_buffer f) (obs f) (ids f) (acts f))).

Definition set_sample_buffer (b : B) : Worker unit :=
  fun f => ([], inr (tt, Frame (model f) b (obs f) (ids f) (acts f))).

Definition get_model : Worker M := fun f => ([], inr (model f, f)).

Definition get_sample_buffer : Worker B :=
  fun f => ([], inr (sample_buffer f, f)).

(** [conn.send(v)] *)
Definition conn_send (v : value) : Worker unit := emit (Send v).

(** [model.infer_action(obs, ids, policy=policy, eps=eps)] *)
Definition model_infer_action (o i policy eps : value) : Worker value :=
  m <- get_model ;;
  emit (CallInfer o i policy eps) ;;
  '(a, m') <- lift (BaseModel.infer_action m o i policy eps) ;;
  set_model m' ;;
  ret a.

(** [model.train(sample_buffer, print_every=print_every)] *)
Definition model_train (print_every : value) : Worker (value * value) :=
  m <- get_model ;;
  b <- get_sample_buffer ;;
  emit (CallTrain b print_every) ;;
  '(r, m') <- lift (BaseModel.train m b print_every) ;;
  set_model m' ;;
  ret r.

(** [model.save(savedir, n_iter)] *)
Definition model_save (savedir n_iter : value) : Worker unit :=
  m <- get_model ;;
  emit (CallSave savedir n_iter) ;;
  m' <- lift (BaseModel.save m savedir n_iter) ;;
  set_model m'.

(** [model.load(savedir, n_iter, name)] *)
Definition model_load (savedir n_iter name : value) : Worker unit :=
  m <- get_model ;;
  emit (CallLoad savedir n_iter name) ;;
  m' <- lift (BaseModel.load m savedir n_iter name) ;;
  set_model m'.

(** [sample_buffer = magent.utility.EpisodesBuffer(capacity)] *)
Definition new_sample_buffer (capacity : Z) : Worker unit :=
  emit (NewBuffer capacity) ;;
  set_sample_buffer (EpisodesBuffer capacity).

(** [sample_buffer.record_step(ids, obs, acts, rewards, alives)]: the
  arguments are evaluated left to right, the buffer is updated in place. *)
Definition sample_buffer_record_step (rewards alives : value) : Worker unit :=
  b <- get_sample_buffer ;;
  i <- local "ids" ids ;;
  o <- local "obs" obs ;;
  a <- local "acts" acts ;;
  emit (CallRecord i o a rewards alives) ;;
  b' <- lift (record_step b i o a rewards alives) ;;
  set_sample_buffer b'.

(** [tag == 'literal'] as the condition of an [if]. *)
Definition test (tag : value) (literal : string) : Worker bool :=
  lift (eq_str tag literal).

(** The body of the [while True] loop after [cmd = conn.recv()]. *)
Definition dispatch (sample_buffer_capacity : Z) (cmd : value)
  : Worker control :=
  tag <- lift (getitem cmd 0) ;;
  is_act <- test tag "act" ;;
  if is_act then
    o <- lift (getitem cmd 1) ;; set_obs o ;;
    i <- lift (getitem cmd 2) ;; set_ids i ;;
    policy <- lift (getitem cmd 3) ;;
    eps <- lift (getitem cmd 4) ;;
    a <- model_infer_action o i policy eps ;; set_acts a ;;
    conn_send a ;;
    ret Continue
  else
  is_train <- test tag "train" ;;
  if is_train then
    print_every <- lift (getitem cmd 1) ;;
    '(total_loss, val) <- model_train print_every ;;
    new_sample_buffer sample_buffer_capacity ;;
    conn_send (VTuple [total_loss; val]) ;;
    ret Continue
  else
  is_sample <- test tag "sample" ;;
  if is_sample then
    rewards <- lift (getitem cmd 1) ;;
    alives <- lift (getitem cmd 2) ;;
    sample_buffer_record_step rewards alives ;;
    conn_send (VStr "done") ;;
    ret Continue
  else
  is_save <- test tag "save" ;;
  if is_save then
    savedir <- lift (getitem cmd 1) ;;
    n_iter <- lift (getitem cmd 2) ;;
    model_save savedir n_iter ;;
    conn_send (VStr "done") ;;
    ret Continue
  else
  is_load <- test tag "load" ;;
  if is_load then
    savedir <- lift (getitem cmd 1) ;;
    n_iter <- lift (getitem cmd 2) ;;
    name <- lift (getitem cmd 3) ;;
    model_load savedir n_iter name ;;
    conn_send (VStr "done") ;;
    ret Continue
  else
  is_quit <- test tag "quit" ;;
  if is_quit then
    ret Break
  else
    msg <- lift (percent "Error: Unknown command %s" tag) ;;
    emit (Print msg) ;;
    ret Break.

(** [while True: cmd = conn.recv(); ...] run against the commands that
  arrive on the pipe, in order.  When they are used up the worker is
  blocked in [conn.recv()]. *)
Fixpoint loop (sample_buffer_capacity : Z) (inbox : list value)
  (f : frame B M) : list (event B) * status B M :=
  match inbox with
  | [] => ([], Waiting f)
  | cmd :: rest =>
      match dispatch sample_buffer_capacity cmd f with
      | (t, inl e) => (Recv cmd :: t, Crashed e)
      | (t, inr (Break, _)) => (Recv cmd :: t, Returned)
      | (t, inr (Continue, f')) =>
          let (t', s) := loop sample_buffer_capacity rest f' in
          (Recv cmd :: t ++ t', s)
      end
  end.

(** [model_client(conn, sample_buffer_capacity, RLModel, model_args)], with
  [model0] the object that the call of [RLModel] constructs. *)
Definition model_client (inbox : list value) (sample_buffer_capacity : Z)
  (model0 : M) : list (event B) * status B M :=
  let (t, s) :=
    loop sample_buffer_capacity inbox
      (Frame model0 (EpisodesBuffer sample_buffer_capacity) None None None) in
  (NewBuffer sample_buffer_capacity :: t, s).

End Worker.

(** The values the worker puts on the pipe, in order. *)
Definition sends {B} (t : list (event B)) : list value :=
  flat_map (fun ev => match ev with Send v => [v] | _ => [] end) t.

(** ** The supervisor's end of the pipe *)

(** What a method of the handle does on its end of the pipe. *)
Inductive pipe_event : Type :=
| Put (cmd : value)     (* [conn.send(cmd)] *)
| Get (v : value).      (* [conn.recv()] returned [v] *)

(** The ways a method of the handle does not return. *)
Inductive stop : Type :=
| Raise (e : exn)
| NoReply.   (* [conn.recv()] with nothing to come: the call blocks, or
                fails with EOFError once the pipe is closed *)

(** The supervisor's end of the pipe together with the process behind it.
    The pipe is ordered and the worker is sequential and deterministic, so
    what [recv] returns is fixed by the commands sent so far: [peer] maps them
    to everything the worker puts on the pipe in answer. *)
Record connection : Type := Connection {
  peer : list value -> list value;
  outgoing : list value;    (* everything sent so far, oldest first *)
  nread : nat               (* how many answers were received so far *)
}.

(** The connection after one more command was sent. *)
Definition after_send (c : connection) (cmd : value) : connection :=
  Connection (peer c) (outgoing c ++ [cmd]) (nread c).

(** The connection after one more answer was received. *)
Definition after_recv (c : connection) : connection :=
  Connection (peer c) (outgoing c) (S (nread c)).

(** The answers that are on their way and not received yet. *)
Definition pending (c : connection) : list value :=
  skipn (nread c) (peer c (outgoing c)).

Module ProcessingModel.

(** The attributes of a [ProcessingModel] object: [self.conn] only. *)
Record t : Type := Self { conn : connection }.

Local Open Scope proc_scope.

Local Abbreviation Method := (Proc stop pipe_event t).

(** [self.conn.send(cmd)]: the command is handed to the pipe.  The pipe is
    taken as able to take it: a send that blocks on a full pipe or fails on a
    pipe whose other end is closed is not part of this model. *)
Definition conn_send (cmd : value) : Method unit :=
  fun self => ([Put cmd], inr (tt, Self (after_send (conn self) cmd))).

(** [self.conn.recv()] *)
Definition conn_recv : Method value :=
  fun self =>
    let c := conn self in
    match nth_error (peer c (outgoing c)) (nread c) with
    | Some v => ([Get v], inr (v, Self (after_recv c)))
    | None => ([], inl NoReply)
    end.

(** [ProcessingModel.__init__]: the pipe is created, the worker process is
    started on [model_client] with the other end, and this end is kept. *)
Definition init {O : Objects} {B M} `{TransitionBuffer B} `{BaseModel.t B M}
  (sample_buffer_capacity : Z) (model0 : M) : t :=
  Self (Connection
          (fun inbox => sends (fst (model_client inbox sample_buffer_capacity model0)))
          [] 0).

(** [assert self.conn.recv() == 'done'] *)
Definition check_done {O : Objects} : Method value :=
  v <- conn_recv ;;
  match eq_str v "done" with
  | inr true => ret VNone
  | inr false => raise (Raise AssertionError)
  | inl e => raise (Raise e)
  end.

Definition sample_step {O : Objects} (rewards alives : value) (block : bool)
  : Method value :=
  conn_send (VList [VStr "sample"; rewards; alives]) ;;
  if block then check_done ;; ret VNone else ret VNone.

Definition infer_action (raw_obs ids policy eps : value) (block : bool)
  : Method value :=
  conn_send (VList [VStr "act"; raw_obs; ids; policy; eps]) ;;
  if block then conn_recv else ret VNone.

Definition fetch_action : Method value := conn_recv.

Definition fetch_train : Method value := conn_recv.

Definition train (print_every : value) (block : bool) : Method value :=
  conn_send (VList [VStr "train"; print_every]) ;;
  if block then fetch_train else ret VNone.

Definition save {O : Objects} (save_dir epoch : value) (block : bool)
  : Method value :=
  conn_send (VList [VStr "save"; save_dir; epoch]) ;;
  if block then check_done ;; ret VNone else ret VNone.

Definition load {O : Objects} (save_dir epoch name : value) (block : bool)
  : Method value :=
  conn_send (VList [VStr "load"; save_dir; epoch; name]) ;;
  if block then check_done ;; ret VNone else ret VNone.

Definition quit : Method value :=
  conn_send (VList [VStr "quit"]) ;;
  ret VNone.

End ProcessingModel.

(** The commands the handle puts on the pipe. *)
Definition puts (t : list pipe_event) : list value :=
  flat_map (fun ev => match ev with Put c => [c] | Get _ => [] end) t.

(** The answers the handle takes from the pipe. *)
Definition gets (t : list pipe_event) : list value :=
  flat_map (fun ev => match ev with Get v => [v] | Put _ => [] end) t.

(** ** The protocol as the specification describes it *)

Module Protocol.

(** The six commands, each with the payload its tag requires. *)
Inductive Command : Type :=
| Infer (observation ids policy eps : value)
| Sample (rewards aliveFlags : value)
| Train (printEvery : value)
| Save (directory epoch : value)
| Load (directory epoch name : value)
| Quit.

(** A response: a typed payload or the completion marker. *)
Inductive Response : Type :=
| ActionVector (actions : value)
| LossAndMeanValue (loss meanValue : value)
| Done.

(** The state of the Host: its capability, its Transition Buffer, and the
    ids, observation and actions of the most recent Infer dispatch. *)
Record state (B M : Type) : Type := State {
  capability : M;
  buffer : B;
  carried : option (value * value * value)
}.

Arguments State {B M}.
Arguments capability {B M}.
Arguments buffer {B M}.
Arguments carried {B M}.

Section DispatchTable.

Context {B M : Type} `{TransitionBuffer B} `{BaseModel.t B M}.

(** The dispatch table.  [None] where the table promises no response: Quit,
    a Sample with no Infer before it, a capability operation that fails. *)
Definition respond (capacity : Z) (s : state B M) (c : Command)
  : option (Response * state B M) :=
  match c with
  | Infer observation ids policy eps =>
      match BaseModel.infer_action (capability s) observation ids policy eps with
      | inr (actions, m) =>
          Some (ActionVector actions,
                State m (buffer s) (Some (ids, observation, actions)))
      | inl _ => None
      end
  | Sample rewards aliveFlags =>
      match carried s with
      | Some (ids, observation, actions) =>
          match record_step (buffer s) ids observation actions rewards aliveFlags with
          | inr b => Some (Done, State (capability s) b (carried s))
          | inl _ => None
          end
      | None => None
      end
  | Train printEvery =>
      match BaseModel.train (capability s) (buffer s) printEvery with
      | inr ((loss, meanValue), m) =>
          Some (LossAndMeanValue loss meanValue,
                State m (EpisodesBuffer capacity) (carried s))
      | inl _ => None
      end
  | Save directory epoch =>
      match BaseModel.save (capability s) directory epoch with
      | inr m => Some (Done, State m (buffer s) (carried s))
      | inl _ => None
      end
  | Load directory epoch name =>
      match BaseModel.load (capability s) directory epoch name with
      | inr m => Some (Done, State m (buffer s) (carried s))
      | inl _ => None
      end
  | Quit => None
  end.

(** The responses to a sequence of commands, one per command, in order. *)
Fixpoint run (capacity : Z) (s : state B M) (cs : list Command)
  : option (list Response * state B M) :=
  match cs with
  | [] => Some ([], s)
  | c :: cs' =>
      match respond capacity s c with
      | Some (r, s') =>
          match run capacity s' cs' with
          | Some (rs, s'') => Some (r :: rs, s'')
          | None => None
          end
      | None => None
      end
  end.

End DispatchTable.

(** The response the wire contract lists for a command. *)
Definition answers (c : Command) (r : Response) : Prop :=
  match c, r with
  | Infer _ _ _ _, ActionVector _ => True
  | Train _, LossAndMeanValue _ _ => True
  | Sample _ _, Done | Save _ _, Done | Load _ _ _, Done => True
  | _, _ => False
  end.

Definition is_quit (c : Command) : bool :=
  match c with Quit => true | _ => false end.

Definition is_infer (c : Command) : bool :=
  match c with Infer _ _ _ _ => true | _ => false end.

(** Every Sample of [cs] has an Infer before it; [seen] tells whether an
    Infer came before [cs]. *)
Fixpoint sample_after_infer (seen : bool) (cs : list Command) : bool :=
  match cs with
  | [] => true
  | Infer _ _ _ _ :: cs' => sample_after_infer true cs'
  | Sample _ _ :: cs' => seen && sample_after_infer seen cs'
  | _ :: cs' => sample_after_infer seen cs'
  end.

End Protocol.

Import Protocol.

(** A command as the handle writes it on the pipe. *)
Definition encode (c : Command) : value :=
  match c with
  | Infer observation ids policy eps =>
      VList [VStr "act"; observation; ids; policy; eps]
  | Sample rewards aliveFlags => VList [VStr "sample"; rewards; aliveFlags]
  | Train printEvery => VList [VStr "train"; printEvery]
  | Save directory epoch => VList [VStr "save"; directory; epoch]
  | Load directory epoch name => VList [VStr "load"; directory; epoch; name]
  | Quit => VList [VStr "quit"]
  end.

(** A response as the worker writes it on the pipe. *)
Definition wire (r : Response) : value :=
  match r with
  | ActionVector actions => actions
  | LossAndMeanValue loss meanValue => VTuple [loss; meanValue]
  | Done => VStr "done"
  end.

(** The pipe as the worker sees it: what it received and what it sent. *)
Definition channel {B} (t : list (event B)) : list (event B) :=
  filter (fun ev => match ev with Recv _ | Send _ => true | _ => false end) t.

(** Command, response, command, response, ... *)
Fixpoint alternate {B} (cmds resps : list value) : list (event B) :=
  match cmds, resps with
  | c :: cmds', r :: resps' => Recv c :: Send r :: alternate cmds' resps'
  | _, _ => []
  end.

(** The state of the dispatch table that a frame of the worker stands for. *)
Definition abstract {B M} (f : frame B M) : state B M :=
  State (model f) (sample_buffer f)
    (match ids f, obs f, acts f with
     | Some i, Some o, Some a => Some (i, o, a)
     | _, _, _ => None
     end).

(** Is a local variable bound, is a value carried over? *)
Definition bound {A} (x : option A) : bool :=
  match x with Some _ => true | None => false end.

(** ** A concrete Transition Buffer *)

(** One recorded step. *)
Record Transition : Type := Step {
  step_ids : value;
  step_observation : value;
  step_actions : value;
  step_rewards : value;
  step_alive : value
}.

(** Modelled from the spec: the Transition Buffer (class
    [magent.utility.EpisodesBuffer] is not in this file), an ordered,
    capacity-bounded collection of Transitions; at capacity, recording is a
    hard stop. *)
Record ListBuffer : Type := Buffer {
  buffer_capacity : Z;
  buffer_steps : list Transition
}.

#[export] Instance ListBuffer_TransitionBuffer : TransitionBuffer ListBuffer := {|
  EpisodesBuffer := fun capacity => Buffer capacity [];
  record_step := fun b i o a r l =>
    inr (if (Z.of_nat (List.length (buffer_steps b)) <? buffer_capacity b)%Z
         then Buffer (buffer_capacity b) (buffer_steps b ++ [Step i o a r l])
         else b)
|}.

#[export] Instance BaseModel_default (B : Type) : BaseModel.t B unit :=
  BaseModel.default B.

(** ** Vocabulary of the properties *)

(** [cmd[0] == 'act'] holds; false as well when [cmd[0]] or the comparison
    raises. *)
Definition is_act {O : Objects} (cmd : value) : bool :=
  match getitem cmd 0 with
  | inr tag =>
      match eq_str tag "act" with
      | inr b => b
      | inl _ => false
      end
  | inl _ => false
  end.

(** None of the operations of the capability and of the buffer that the
    dispatch table invokes for [cs], one command after the other from state
    [s], raises.  (Nothing is invoked for a Quit or for a Sample with no Infer
    before it, nor for the commands behind them.) *)
Fixpoint invoked_operations_return {B M} `{TransitionBuffer B}
  `{BaseModel.t B M} (capacity : Z) (s : state B M) (cs : list Command)
  : Prop :=
  match cs with
  | [] => True
  | c :: cs' =>
      match respond capacity s c with
      | Some (_, s') => invoked_operations_return capacity s' cs'
      | None =>
          match c with
          | Quit => True
          | Sample _ _ => carried s = None
          | _ => False
          end
      end
  end.

(** The calls of [model.train] in a trace: the buffer handed over and the log
    cadence. *)
Definition train_calls {B} (t : list (event B)) : list (B * value) :=
  flat_map (fun ev => match ev with CallTrain b p => [(b, p)] | _ => [] end) t.

(** The worker answers each of [cs] with one of [rs], in order: its end of
    the pipe sees command, answer, command, answer, ... and nothing else. *)
Definition answered_in_order {B M} (r : list (event B) * status B M)
  (cs : list Command) (rs : list value) : Prop :=
  List.length rs = List.length cs /\
  channel (fst r) = alternate (map encode cs) rs.

(** A Sample command that would carry the ids, the observation and the
    actions of an infer call next to the rewards and the alive flags. *)
Definition sample_command_carries (cmd ids obs acts rewards alives : value)
  : Prop :=
  exists payload,
    cmd = VList (VStr "sample" :: payload) /\
    In ids payload /\ In obs payload /\ In acts payload /\
    In rewards payload /\ In alives payload.

(** ** A running example: [BaseModel] hosted with a buffer of capacity 2 *)

Definition example_commands : list Command :=
  [Infer (VObj 0) (VObj 1) (VStr "e_greedy") (VInt 0);
   Sample (VObj 2) (VObj 3);
   Train (VInt 5000);
   Save (VStr "/tmp/x") (VInt 5);
   Load (VStr "/tmp/x") (VInt 5) VNone].

(** In the examples every object [VObj n] is the numpy vector of the two
    numbers [n] and [n + 1]: indexing gives an entry, and the elementwise
    [==] with a string has no truth value. *)
Definition vectors : Objects := {|
  object_getitem := fun n i =>
    match i with
    | 0 => inr (VInt (Z.of_nat n))
    | 1 => inr (VInt (Z.of_nat (S n)))
    | _ => inl IndexError
    end;
  object_eq_str := fun _ _ => inl ValueError
|}.

Definition example_handle : ProcessingModel.t :=
  ProcessingModel.init (O:=vectors) (B:=ListBuffer) (M:=unit) 2 tt.

Definition example_frame : frame ListBuffer unit :=
  Frame tt (Buffer 2 [Step (VObj 9) (VObj 8) (VObj 7) (VObj 6) (VObj 5)])
    (Some (VObj 0)) (Some (VObj 1)) (Some VNone).

(** ** The worker's prologue and the constructor of the handle *)

(** Keyword arguments: a dict with string keys, as an association list with
    one entry per key. *)
Definition dict : Type := list (string * value).

(** [d[key]], [None] for a missing key. *)
Fixpoint dict_get (d : dict) (key : string) : option value :=
  match d with
  | [] => None
  | (k, v) :: d' => if String.eqb k key then Some v else dict_get d' key
  end.

(** [d[key] = v]: an existing entry is replaced in place, a new key goes to
    the end. *)
Fixpoint dict_set (d : dict) (key : string) (v : value) : dict :=
  match d with
  | [] => [(key, v)]
  | (k, v') :: d' =>
      if String.eqb k key then (k, v) :: d' else (k, v') :: dict_set d' key v
  end.

(** The keyword arguments [ProcessingModel.__init__] hands to the worker:
    [kwargs['env'] = env; kwargs['handle'] = handle; kwargs['name'] = name]. *)
Definition worker_kwargs (env handle name : value) (kwargs : dict) : dict :=
  dict_set (dict_set (dict_set kwargs "env" env) "handle" handle) "name" name.

(** [model_client] from its first line: the model is constructed from the
    keyword arguments, then the buffer, then the loop runs.  [RLModel] is the
    class, that is its constructor, which may raise. *)
Definition model_client_from {O : Objects} {B M} `{TransitionBuffer B}
  `{BaseModel.t B M}
  (inbox : list value) (sample_buffer_capacity : Z)
  (RLModel : dict -> exn + M) (model_args : dict)
  : list (event B) * status B M :=
  match RLModel model_args with
  | inl e => ([], Crashed e)
  | inr model0 => model_client inbox sample_buffer_capacity model0
  end.

(** [ProcessingModel.__init__(env, handle, name, sample_buffer_capacity,
    RLModel, kwargs)], with [RLModel=None] when the argument is left out. *)
Definition construct {O : Objects} {B M} `{TransitionBuffer B}
  `{BaseModel.t B M}
  (env handle name : value) (sample_buffer_capacity : Z)
  (RLModel : option (dict -> exn + M)) (kwargs : dict)
  : exn + ProcessingModel.t :=
  match RLModel with
  | None => inl AssertionError
  | Some cls =>
      inr (ProcessingModel.Self
             (Connection
                (fun inbox =>
                   sends (fst (model_client_from inbox sample_buffer_capacity
                                 cls (worker_kwargs env handle name kwargs))))
                [] 0))
  end.

(** ** More vocabulary *)

(** The commands the worker took from the pipe, in order. *)
Definition recvs {B} (t : list (event B)) : list value :=
  flat_map (fun ev => match ev with Recv c => [c] | _ => [] end) t.

(** The buffer that results from the constructions and the [record_step]
    calls of a trace, in order, starting from [b]. *)
Fixpoint replay {B} `{TransitionBuffer B} (b : B) (t : list (event B))
  : exn + B :=
  match t with
  | [] => inr b
  | NewBuffer capacity :: t' => replay (EpisodesBuffer capacity) t'
  | CallRecord i o a r l :: t' =>
      match record_step b i o a r l with
      | inr b' => replay b' t'
      | inl e => inl e
      end
  | _ :: t' => replay b t'
  end.

(** The number of payload items the branch of a known tag reads. *)
Definition arity (tag : string) : nat :=
  if String.eqb tag "act" then 4
  else if String.eqb tag "train" then 1
  else if String.eqb tag "sample" then 2
  else if String.eqb tag "save" then 2
  else if String.eqb tag "load" then 3
  else 0.

(** The handle [self] talks to a worker started with [model0] that has
    answered everything it was sent, was given every answer, and now waits in
    frame [f]. *)
Definition serves {O : Objects} {B M} `{TransitionBuffer B}
  `{BaseModel.t B M}
  (sample_buffer_capacity : Z) (model0 : M) (self : ProcessingModel.t)
  (f : frame B M) : Prop :=
  let c := ProcessingModel.conn self in
  peer c = (fun inbox => sends (fst (model_client inbox sample_buffer_capacity model0))) /\
  snd (model_client (outgoing c) sample_buffer_capacity model0) = Waiting f /\
  nread c = List.length (peer c (outgoing c)).

(** A capability for the examples whose every method works [n] more times
    and raises after that. *)
Definition countdown (B : Type) : BaseModel.t B nat := {|
  BaseModel.infer_action := fun n _ _ _ _ =>
    match n with O => inl (ModelError 0) | S n' => inr (VObj 7, n') end;
  BaseModel.train := fun n _ _ =>
    match n with O => inl (ModelError 1) | S n' => inr ((VObj 8, VObj 9), n') end;
  BaseModel.save := fun n _ _ =>
    match n with O => inl (ModelError 2) | S n' => inr n' end;
  BaseModel.load := fun n _ _ _ =>
    match n with O => inl (ModelError 3) | S n' => inr n' end
|}.

(** What a worker that hosts [BaseModel] itself answers to a command: its
    [infer_action] returns None, its [train] returns [0, 0], its [save] and
    [load] return. *)
Definition base_answer (c : Command) : value :=
  match c with
  | Infer _ _ _ _ => VNone
  | Train _ => VTuple [VInt 0; VInt 0]
  | _ => VStr "done"
  end.

(** * Properties *)

(** ** One dispatch of the worker, command by command *)

(** Unfolding [dispatch], and going through its branches. *)
Ltac open_dispatch :=
  unfold dispatch, test, model_infer_action, model_train, model_save,
    model_load, new_sample_buffer, sample_buffer_record_step, local,
    conn_send, set_obs, set_ids, set_acts, set_model, set_sample_buffer,
    get_model, get_sample_buffer, bind, lift, emit, ret, raise.

Ltac split_dispatch :=
  repeat match goal with
         | |- context [match eq_str ?v ?s with _ => _ end] =>
             destruct (eq_str v s) as [? | [|]] eqn:?
         | |- context [match getitem ?v ?n with _ => _ end] =>
             destruct (getitem v n) eqn:?
         | |- context [match percent ?s ?v with _ => _ end] =>
             destruct (percent s v) eqn:?
         | |- context [match BaseModel.infer_action ?x ?y ?z ?u ?v with _ => _ end] =>
             destruct (BaseModel.infer_action x y z u v) as [? | [? ?]] eqn:?
         | |- context [match BaseModel.train ?x ?y ?z with _ => _ end] =>
             destruct (BaseModel.train x y z) as [? | [[? ?] ?]] eqn:?
         | |- context [match BaseModel.save ?x ?y ?z with _ => _ end] =>
             destruct (BaseModel.save x y z) eqn:?
         | |- context [match BaseModel.load ?x ?y ?z ?w with _ => _ end] =>
             destruct (BaseModel.load x y z w) eqn:?
         | |- context [match record_step ?x ?y ?z ?u ?v ?w with _ => _ end] =>
             destruct (record_step x y z u v w) eqn:?
         | |- context [match ?x with Some _ => _ | None => _ end] =>
             destruct x eqn:?
         | _ => progress cbn
         end.

Section Dispatch.

Context {O : Objects} {B M : Type} `{TransitionBuffer B} `{BaseModel.t B M}.

Variable sample_buffer_capacity : Z.

Ltac run_dispatch := open_dispatch; cbn.

Lemma dispatch_infer (o i policy eps : value) (f : frame B M) :
  dispatch sample_buffer_capacity (encode (Infer o i policy eps)) f =
  match BaseModel.infer_action (model f) o i policy eps with
  | inr (a, m) =>
      ([CallInfer o i policy eps; Send a],
       inr (Continue, Frame m (sample_buffer f) (Some o) (Some i) (Some a)))
  | inl x => ([CallInfer o i policy eps], inl x)
  end.
Proof.
  run_dispatch.
  destruct (BaseModel.infer_action (model f) o i policy eps) as [x | [a m]];
    reflexivity.
Qed.

Lemma dispatch_train (print_every : value) (f : frame B M) :
  dispatch sample_buffer_capacity (encode (Train print_every)) f =
  match BaseModel.train (model f) (sample_buffer f) print_every with
  | inr ((total_loss, val), m) =>
      ([CallTrain (sample_buffer f) print_every;
        NewBuffer sample_buffer_capacity;
        Send (VTuple [total_loss; val])],
       inr (Continue,
            Frame m (EpisodesBuffer sample_buffer_capacity)
              (obs f) (ids f) (acts f)))
  | inl x => ([CallTrain (sample_buffer f) print_every], inl x)
  end.
Proof.
  run_dispatch.
  destruct (BaseModel.train (model f) (sample_buffer f) print_every)
    as [x | [[l v] m]]; reflexivity.
Qed.

Lemma dispatch_sample (rewards alives : value) (f : frame B M) :
  dispatch sample_buffer_capacity (encode (Sample rewards alives)) f =
  match ids f, obs f, acts f with
  | Some i, Some o, Some a =>
      match record_step (sample_buffer f) i o a rewards alives with
      | inr b =>
          ([CallRecord i o a rewards alives; Send (VStr "done")],
           inr (Continue, Frame (model f) b (obs f) (ids f) (acts f)))
      | inl x => ([CallRecord i o a rewards alives], inl x)
      end
  | None, _, _ => ([], inl (UnboundLocalError "ids"))
  | Some _, None, _ => ([], inl (UnboundLocalError "obs"))
  | Some _, Some _, None => ([], inl (UnboundLocalError "acts"))
  end.
Proof.
  destruct f as [m b [o |] [i |] [a |]]; run_dispatch; try reflexivity.
  destruct (record_step b i o a rewards alives) as [x | b']; reflexivity.
Qed.

Lemma dispatch_save (savedir n_iter : value) (f : frame B M) :
  dispatch sample_buffer_capacity (encode (Save savedir n_iter)) f =
  match BaseModel.save (model f) savedir n_iter with
  | inr m =>
      ([CallSave savedir n_iter; Send (VStr "done")],
       inr (Continue, Frame m (sample_buffer f) (obs f) (ids f) (acts f)))
  | inl x => ([CallSave savedir n_iter], inl x)
  end.
Proof.
  run_dispatch.
  destruct (BaseModel.save (model f) savedir n_iter) as [x | m]; reflexivity.
Qed.

Lemma dispatch_load (savedir n_iter name : value) (f : frame B M) :
  dispatch sample_buffer_capacity (encode (Load savedir n_iter name)) f =
  match BaseModel.load (model f) savedir n_iter name with
  | inr m =>
      ([CallLoad savedir n_iter name; Send (VStr "done")],
       inr (Continue, Frame m (sample_buffer f) (obs f) (ids f) (acts f)))
  | inl x => ([CallLoad savedir n_iter name], inl x)
  end.
Proof.
  run_dispatch.
  destruct (BaseModel.load (model f) savedir n_iter name) as [x | m];
    reflexivity.
Qed.

Lemma dispatch_quit (f : frame B M) :
  dispatch sample_buffer_capacity (encode Quit) f = ([], inr (Break, f)).
Proof. reflexivity. Qed.

End Dispatch.

(** ** The loop of the worker *)

Section Loop.

Context {O : Objects} {B M : Type} `{TransitionBuffer B} `{BaseModel.t B M}.

Variable sample_buffer_capacity : Z.

Local Abbreviation loop' := (loop (B:=B) (M:=M) sample_buffer_capacity).
Local Abbreviation dispatch' := (dispatch (B:=B) (M:=M) sample_buffer_capacity).

(** Commands that arrive later do not change what the worker did with the
    earlier ones: the run on [xs ++ ys] goes on from where the run on [xs]
    waits. *)
Lemma loop_app (xs ys : list value) (f : frame B M) :
  loop' (xs ++ ys) f =
  match loop' xs f with
  | (t, Waiting f') => let (t', s) := loop' ys f' in (t ++ t', s)
  | (t, s) => (t, s)
  end.
Proof.
  revert f; induction xs as [| cmd xs IH]; intro f; cbn [loop app].
  - destruct (loop' ys f); reflexivity.
  - destruct (dispatch' cmd f) as [t [x | [[|] f']]]; try reflexivity.
    rewrite IH.
    destruct (loop' xs f') as [t1 [f1 | | e]]; try reflexivity.
    destruct (loop' ys f1) as [t2 s2].
    now rewrite app_comm_cons, app_assoc.
Qed.

Lemma sends_app (t t' : list (event B)) : sends (t ++ t') = sends t ++ sends t'.
Proof. apply flat_map_app. Qed.

(** The answers to the commands sent so far stay as they are when more
    commands are sent: what the handle receives does not depend on when the
    worker is scheduled. *)
Lemma sends_prefix (xs ys : list value) (f : frame B M) :
  exists more, sends (fst (loop' (xs ++ ys) f)) = sends (fst (loop' xs f)) ++ more.
Proof.
  rewrite loop_app.
  destruct (loop' xs f) as [t [f' | | e]]; cbn [fst].
  - destruct (loop' ys f') as [t' s]; cbn [fst].
    exists (sends t'); apply sends_app.
  - exists []; now rewrite app_nil_r.
  - exists []; now rewrite app_nil_r.
Qed.

Lemma channel_app (t t' : list (event B)) :
  channel (t ++ t') = channel t ++ channel t'.
Proof. apply filter_app. Qed.

(** One dispatch of the worker does what the dispatch table says. *)
Lemma dispatch_refines (c : Command) (f : frame B M) (r : Response)
  (s' : state B M) :
  respond sample_buffer_capacity (abstract f) c = Some (r, s') ->
  exists t f',
    dispatch' (encode c) f = (t, inr (Continue, f')) /\
    channel t = [Send (wire r)] /\
    abstract f' = s'.
Proof.
  destruct f as [m b o i a]; unfold abstract; cbn [model sample_buffer obs ids acts].
  destruct c as [o' i' p e | rw al | pe | d ep | d ep n |];
    cbn [respond capability buffer carried]; intro R.
  - rewrite dispatch_infer; cbn [model sample_buffer obs ids acts].
    destruct (BaseModel.infer_action m o' i' p e) as [x | [a' m']]; [discriminate |].
    injection R as <- <-. eexists _, _; repeat split.
  - rewrite dispatch_sample; cbn [model sample_buffer obs ids acts].
    destruct i as [i |]; [| discriminate].
    destruct o as [o |]; [| discriminate].
    destruct a as [a |]; [| discriminate].
    destruct (record_step b i o a rw al) as [x | b']; [discriminate |].
    injection R as <- <-. eexists _, _; repeat split.
  - rewrite dispatch_train; cbn [model sample_buffer obs ids acts].
    destruct (BaseModel.train m b pe) as [x | [[l v] m']]; [discriminate |].
    injection R as <- <-. eexists _, _; repeat split.
  - rewrite dispatch_save; cbn [model sample_buffer obs ids acts].
    destruct (BaseModel.save m d ep) as [x | m']; [discriminate |].
    injection R as <- <-. eexists _, _; repeat split.
  - rewrite dispatch_load; cbn [model sample_buffer obs ids acts].
    destruct (BaseModel.load m d ep n) as [x | m']; [discriminate |].
    injection R as <- <-. eexists _, _; repeat split.
  - discriminate.
Qed.

(** The loop of the worker does what the dispatch table says, command after
    command, and then waits for the next one. *)
Lemma loop_refines (cs : list Command) :
  forall (f : frame B M) (rs : list Response) (s' : state B M),
    run sample_buffer_capacity (abstract f) cs = Some (rs, s') ->
    exists t f',
      loop' (map encode cs) f = (t, Waiting f') /\
      channel t = alternate (map encode cs) (map wire rs) /\
      abstract f' = s'.
Proof.
  induction cs as [| c cs IH]; intros f rs s' R; cbn [run] in R.
  - injection R as <- <-. exists [], f. repeat split.
  - destruct (respond sample_buffer_capacity (abstract f) c) as [[r s1] |] eqn:R1;
      [| discriminate].
    destruct (run sample_buffer_capacity s1 cs) as [[rs' s2] |] eqn:R2;
      [| discriminate].
    injection R as <- <-.
    destruct (dispatch_refines _ _ _ _ R1) as (t1 & f1 & D & C & A).
    subst s1.
    destruct (IH _ _ _ R2) as (t2 & f2 & L & C2 & A2).
    exists (Recv (encode c) :: t1 ++ t2), f2.
    cbn [map loop]. rewrite D, L. repeat split; [| exact A2].
    cbn [channel filter]. fold (channel (t1 ++ t2)).
    rewrite channel_app, C, C2. reflexivity.
Qed.

(** The dispatch table answers every command other than Quit, provided no
    Sample comes before the first Infer and the operations it invokes on the
    way return. *)
Lemma run_defined (cs : list Command) :
  forall s : state B M,
    forallb (fun c => negb (is_quit c)) cs = true ->
    sample_after_infer (bound (carried s)) cs = true ->
    invoked_operations_return sample_buffer_capacity s cs ->
    exists rs s',
      run sample_buffer_capacity s cs = Some (rs, s') /\
      Forall2 answers cs rs.
Proof.
  induction cs as [| c cs IH]; intros s NQ SI OR.
  - exists [], s. split; [reflexivity | constructor].
  - cbn [forallb] in NQ. apply andb_prop in NQ as [NQ1 NQ2].
    cbn [invoked_operations_return] in OR.
    assert (exists r s1, respond sample_buffer_capacity s c = Some (r, s1) /\
                         answers c r /\
                         sample_after_infer (bound (carried s1)) cs = true)
      as (r & s1 & R1 & A1 & SI1).
    { destruct s as [m b k].
      destruct c as [o i p e | rw al | pe | d ep | d ep n |];
        cbn [respond sample_after_infer capability buffer carried] in *.
      - destruct (BaseModel.infer_action m o i p e) as [x | [a m']];
          [contradiction |].
        eexists _, _; repeat split. exact SI.
      - apply andb_prop in SI as [S1 S2].
        destruct k as [[[i o] a] |]; [| discriminate].
        destruct (record_step b i o a rw al) as [x | b']; [discriminate |].
        eexists _, _; repeat split. exact S2.
      - destruct (BaseModel.train m b pe) as [x | [[l v] m']];
          [contradiction |].
        eexists _, _; repeat split. exact SI.
      - destruct (BaseModel.save m d ep) as [x | m']; [contradiction |].
        eexists _, _; repeat split. exact SI.
      - destruct (BaseModel.load m d ep n) as [x | m']; [contradiction |].
        eexists _, _; repeat split. exact SI.
      - discriminate. }
    rewrite R1 in OR.
    destruct (IH s1 NQ2 SI1 OR) as (rs & s2 & R2 & A2).
    exists (r :: rs), s2. cbn [run]. rewrite R1, R2.
    split; [reflexivity | now constructor].
Qed.

End Loop.

(** ** Commands that are not 'act' leave [obs], [ids] and [acts] alone *)

Section Locals.

Context {O : Objects} {B M : Type} `{TransitionBuffer B} `{BaseModel.t B M}.

Variable sample_buffer_capacity : Z.

Lemma dispatch_keeps_locals (cmd : value) (f f' : frame B M)
  (t : list (event B)) (k : control) :
  is_act cmd = false ->
  dispatch sample_buffer_capacity cmd f = (t, inr (k, f')) ->
  obs f' = obs f /\ ids f' = ids f /\ acts f' = acts f.
Proof.
  unfold is_act. open_dispatch.
  destruct f as [m b o i a]; cbn [model sample_buffer obs ids acts].
  destruct (getitem cmd 0) as [x | tag]; [discriminate |].
  destruct (eq_str tag "act") as [e | [|]]; [discriminate | discriminate |].
  intros _.
  split_dispatch; intro E; try discriminate; injection E as <- <- <-;
    repeat split.
Qed.

Lemma loop_keeps_locals (inbox : list value) :
  forall (f f' : frame B M) (t : list (event B)),
    forallb (fun cmd => negb (is_act cmd)) inbox = true ->
    loop sample_buffer_capacity inbox f = (t, Waiting f') ->
    obs f' = obs f /\ ids f' = ids f /\ acts f' = acts f.
Proof.
  induction inbox as [| cmd inbox IH]; intros f f' t NA L; cbn [loop] in L.
  - injection L as <- <-. repeat split.
  - cbn [forallb] in NA. apply andb_prop in NA as [NA1 NA2].
    apply negb_true_iff in NA1.
    destruct (dispatch sample_buffer_capacity cmd f) as [t1 [x | [[|] f1]]] eqn:D;
      try discriminate.
    destruct (loop sample_buffer_capacity inbox f1) as [t2 s] eqn:L2.
    injection L as <- ->.
    destruct (dispatch_keeps_locals _ _ _ _ _ NA1 D) as (<- & <- & <-).
    eapply IH; eassumption.
Qed.

End Locals.

(** ** The worker: ordering, Train, Sample, Quit and unknown commands *)

Section WorkerClaims.

Context {O : Objects} {B M : Type} `{TransitionBuffer B} `{BaseModel.t B M}.

Variable sample_buffer_capacity : Z.

(** C1, as amended.  For every sequence of commands other than Quit in
    which no Sample comes before the first Infer, and as long as the
    operations of the capability and of the buffer that are invoked on the
    way do not raise, the worker started by [model_client] sends exactly one
    response per command, the i-th response being the one the dispatch table
    gives for the i-th command (an ActionVector for Infer, a (loss,
    meanValue) pair for Train, the completion marker for Sample, Save and
    Load), each sent before the next command is received; then the worker
    waits for the next command. *)
Theorem one_response_per_command (model0 : M) (cs : list Command) :
  forallb (fun c => negb (is_quit c)) cs = true ->
  sample_after_infer false cs = true ->
  invoked_operations_return sample_buffer_capacity
    (State model0 (EpisodesBuffer sample_buffer_capacity) None) cs ->
  exists (rs : list Response) (f : frame B M),
    snd (model_client (map encode cs) sample_buffer_capacity model0) = Waiting f /\
    answered_in_order
      (model_client (map encode cs) sample_buffer_capacity model0)
      cs (map wire rs) /\
    Forall2 answers cs rs /\
    run sample_buffer_capacity
      (State model0 (EpisodesBuffer sample_buffer_capacity) None) cs
    = Some (rs, abstract f).
Proof.
  intros NQ SI OR.
  pose (f0 := Frame model0 (EpisodesBuffer (B:=B) sample_buffer_capacity)
                None None None).
  destruct (run_defined sample_buffer_capacity cs (abstract f0) NQ SI OR)
    as (rs & s' & Run & Ans).
  destruct (loop_refines sample_buffer_capacity cs f0 rs s' Run)
    as (t & f & L & C & A).
  exists rs, f. unfold model_client, answered_in_order. fold f0. rewrite L.
  cbn [fst snd]. repeat split.
  - rewrite length_map. symmetry. eapply Forall2_length; eassumption.
  - exact C.
  - exact Ans.
  - rewrite A. exact Run.
Qed.

(** C2.  A Train command whose training returns makes the worker call the
    capability's train with the current buffer and the requested log cadence,
    then bind a fresh buffer of the same capacity, then send the pair
    (loss, meanValue); so when one step is sampled after it, the next train
    call sees the fresh buffer with that step only, whatever the buffer held
    before. *)
Theorem train_resets_buffer (print_every : value) (f : frame B M)
  (total_loss val : value) (m : M) :
  BaseModel.train (model f) (sample_buffer f) print_every
  = inr ((total_loss, val), m) ->
  dispatch sample_buffer_capacity (encode (Train print_every)) f =
  ([CallTrain (sample_buffer f) print_every;
    NewBuffer sample_buffer_capacity;
    Send (VTuple [total_loss; val])],
   inr (Continue,
        Frame m (EpisodesBuffer sample_buffer_capacity) (obs f) (ids f) (acts f)))
  /\
  forall (i o a rewards alives print_every' : value) (b : B),
    ids f = Some i -> obs f = Some o -> acts f = Some a ->
    record_step (EpisodesBuffer sample_buffer_capacity) i o a rewards alives
    = inr b ->
    train_calls
      (fst (loop sample_buffer_capacity
              (map encode [Train print_every; Sample rewards alives;
                           Train print_every']) f))
    = [(sample_buffer f, print_every); (b, print_every')].
Proof.
  intro T.
  assert (D : dispatch sample_buffer_capacity (encode (Train print_every)) f =
              ([CallTrain (sample_buffer f) print_every;
                NewBuffer sample_buffer_capacity;
                Send (VTuple [total_loss; val])],
               inr (Continue,
                    Frame m (EpisodesBuffer sample_buffer_capacity)
                      (obs f) (ids f) (acts f)))).
  { rewrite dispatch_train, T. reflexivity. }
  split; [exact D |].
  intros i o a rewards alives print_every' b Ei Eo Ea Rec.
  cbn [map loop]. rewrite D.
  rewrite dispatch_sample. cbn [model sample_buffer obs ids acts].
  rewrite Ei, Eo, Ea, Rec.
  rewrite dispatch_train. cbn [model sample_buffer obs ids acts].
  destruct (BaseModel.train m b print_every') as [x | [[l v] m']]; reflexivity.
Qed.

(** C3.  Once an Infer command was dispatched, and whatever commands other
    than 'act' were dispatched since, a Sample command makes the worker call
    [record_step] on its buffer with the ids and the observation of that
    Infer command, the actions the capability returned for it, and the
    rewards and alive flags of the Sample command; when that returns, the
    worker sends the completion marker. *)
Theorem sample_records_last_infer (f0 f2 : frame B M) (o i policy eps a : value)
  (m1 : M) (mid : list value) (t : list (event B)) (rewards alives : value) :
  BaseModel.infer_action (model f0) o i policy eps = inr (a, m1) ->
  forallb (fun cmd => negb (is_act cmd)) mid = true ->
  loop sample_buffer_capacity (encode (Infer o i policy eps) :: mid) f0
  = (t, Waiting f2) ->
  dispatch sample_buffer_capacity (encode (Sample rewards alives)) f2 =
  match record_step (sample_buffer f2) i o a rewards alives with
  | inr b =>
      ([CallRecord i o a rewards alives; Send (VStr "done")],
       inr (Continue, Frame (model f2) b (Some o) (Some i) (Some a)))
  | inl x => ([CallRecord i o a rewards alives], inl x)
  end.
Proof.
  intros I NA L. cbn [loop] in L.
  rewrite dispatch_infer, I in L.
  destruct (loop sample_buffer_capacity mid _) as [t2 s] eqn:L2.
  injection L as <- ->.
  destruct (loop_keeps_locals _ _ _ _ _ NA L2) as (Eo & Ei & Ea).
  cbn [obs ids acts] in Eo, Ei, Ea.
  rewrite dispatch_sample, Eo, Ei, Ea. reflexivity.
Qed.


(** Tags that go to the last branch and are printed: every string other than
    the six known ones, every number, bool and None, every list, and every
    tuple of one item; the message shows the tag (the item, for a tuple). *)
Lemma unknown_tags (tag : value) :
  (forall n, tag <> VObj n) ->
  (forall s, In s ["act"; "train"; "sample"; "save"; "load"; "quit"] ->
             tag <> VStr s) ->
  (forall s, In s ["act"; "train"; "sample"; "save"; "load"; "quit"] ->
             eq_str tag s = inr false) /\
  (forall items, tag = VTuple items -> List.length items = 1 ->
                 exists x, items = [x] /\
                 percent "Error: Unknown command %s" tag
                 = inr (Fmt "Error: Unknown command %s" x)) /\
  ((forall items, tag <> VTuple items) ->
   percent "Error: Unknown command %s" tag
   = inr (Fmt "Error: Unknown command %s" tag)).
Proof.
  intros NO NS. split; [| split].
  - intros s I. destruct tag; try reflexivity.
    + cbn [eq_str]. f_equal. apply String.eqb_neq.
      intros ->. exact (NS _ I eq_refl).
    + now contradiction (NO n).
  - intros items -> L. destruct items as [| x [| y items]]; try discriminate L.
    exists x. split; reflexivity.
  - intros NT. destruct tag; try reflexivity. now contradiction (NT items).
Qed.

(** On Quit the worker leaves its loop and sends nothing; whatever was sent
    to it before, its answers are the same with and without the Quit. *)
Lemma quit_leaves_loop (rest : list value) (f : frame B M) :
  loop sample_buffer_capacity (encode Quit :: rest) f
  = ([Recv (encode Quit)], Returned).
Proof. reflexivity. Qed.

Lemma quit_sends_nothing (model0 : M) (inbox : list value) :
  sends (fst (model_client (inbox ++ [encode Quit]) sample_buffer_capacity model0))
  = sends (fst (model_client inbox sample_buffer_capacity model0)).
Proof.
  unfold model_client. rewrite loop_app.
  destruct (loop sample_buffer_capacity inbox _) as [t [f | | e]];
    try reflexivity.
  rewrite quit_leaves_loop. cbn [fst].
  change (NewBuffer sample_buffer_capacity :: t ++ [Recv (encode Quit)])
    with ((NewBuffer sample_buffer_capacity :: t) ++ [Recv (encode Quit)]).
  rewrite sends_app. cbn. now rewrite app_nil_r.
Qed.

(** C9.  When the worker gets to dispatch a Sample command and no 'act'
    command came before it, the dispatch raises (the local [ids] is unbound):
    the worker crashes right after receiving the command, the completion
    marker is not sent, and later commands are not received. *)
Theorem sample_before_infer_crashes (model0 : M) (pre post : list value)
  (rewards alives : value) (t : list (event B)) (f : frame B M) :
  forallb (fun cmd => negb (is_act cmd)) pre = true ->
  model_client pre sample_buffer_capacity model0 = (t, Waiting f) ->
  model_client (pre ++ encode (Sample rewards alives) :: post)
    sample_buffer_capacity model0
  = (t ++ [Recv (encode (Sample rewards alives))],
     Crashed (UnboundLocalError "ids")) /\
  sends (fst (model_client (pre ++ encode (Sample rewards alives) :: post)
                sample_buffer_capacity model0))
  = sends t /\
  (ids f = None /\ obs f = None /\ acts f = None).
Proof.
  intros NA. unfold model_client. rewrite loop_app.
  destruct (loop sample_buffer_capacity pre _) as [t1 s] eqn:L.
  intro E. injection E as <- ->.
  destruct (loop_keeps_locals _ _ _ _ _ NA L) as (Eo & Ei & Ea).
  cbn [obs ids acts] in Eo, Ei, Ea.
  split; [| split; [| now repeat split]].
  all: cbn [loop]; rewrite dispatch_sample, Ei; cbn [fst].
  - reflexivity.
  - change (NewBuffer sample_buffer_capacity
              :: t1 ++ [Recv (encode (Sample rewards alives))])
      with ((NewBuffer sample_buffer_capacity :: t1)
              ++ [Recv (encode (Sample rewards alives))]).
    rewrite sends_app. cbn. now rewrite app_nil_r.
Qed.

End WorkerClaims.

(** ** The handle *)

Section Handle.

Context {O : Objects}.

Lemma skipn_S_tl {A} (n : nat) : forall l : list A, skipn (S n) l = tl (skipn n l).
Proof.
  induction n as [| n IH]; intros [| x l]; try reflexivity.
  rewrite skipn_cons, IH. reflexivity.
Qed.

Lemma pending_after_recv (c : connection) :
  pending (after_recv c) = tl (pending c).
Proof. unfold pending, after_recv; cbn [peer outgoing nread]. apply skipn_S_tl. Qed.

(** [recv] takes the oldest answer that is on its way. *)
Lemma conn_recv_pending (self : ProcessingModel.t) :
  ProcessingModel.conn_recv self =
  match pending (ProcessingModel.conn self) with
  | v :: _ => ([Get v], inr (v, ProcessingModel.Self (after_recv (ProcessingModel.conn self))))
  | [] => ([], inl NoReply)
  end.
Proof.
  unfold ProcessingModel.conn_recv, pending.
  rewrite <- hd_error_skipn.
  destruct (skipn _ _); reflexivity.
Qed.

(** Each method writes the command of the wire contract. *)
Lemma methods_send_encoded (self : ProcessingModel.t) (block : bool) :
  (forall o i p e,
      puts (fst (ProcessingModel.infer_action o i p e block self))
      = [encode (Infer o i p e)]) /\
  (forall r l,
      puts (fst (ProcessingModel.sample_step r l block self))
      = [encode (Sample r l)]) /\
  (forall p,
      puts (fst (ProcessingModel.train p block self)) = [encode (Train p)]) /\
  (forall d e,
      puts (fst (ProcessingModel.save d e block self)) = [encode (Save d e)]) /\
  (forall d e n,
      puts (fst (ProcessingModel.load d e n block self)) = [encode (Load d e n)]) /\
  puts (fst (ProcessingModel.quit self)) = [encode Quit].
Proof.
  unfold ProcessingModel.infer_action, ProcessingModel.sample_step,
    ProcessingModel.train, ProcessingModel.save, ProcessingModel.load,
    ProcessingModel.quit, ProcessingModel.check_done,
    ProcessingModel.fetch_train, ProcessingModel.conn_send, bind, ret, raise.
  repeat split; intros; destruct block; cbn;
    try rewrite conn_recv_pending;
    try (destruct (pending _) as [| v q]; cbn; try reflexivity;
         destruct (eq_str v "done") as [? | [|]]; reflexivity);
    reflexivity.
Qed.

(** C4, as amended.  Every [sample_step] call sends one command, the Sample
    command whose payload is exactly the given rewards and alive flags;
    nothing of an earlier [infer_action] call is in it (the handle keeps
    nothing but its end of the pipe). *)
Theorem sample_step_sends_rewards_and_alives (self : ProcessingModel.t)
  (rewards alives : value) (block : bool) :
  puts (fst (ProcessingModel.sample_step rewards alives block self))
  = [VList [VStr "sample"; rewards; alives]] /\
  ProcessingModel.sample_step rewards alives false self
  = ([Put (VList [VStr "sample"; rewards; alives])],
     inr (VNone,
          ProcessingModel.Self
            (after_send (ProcessingModel.conn self)
               (VList [VStr "sample"; rewards; alives])))).
Proof.
  split; [| reflexivity].
  destruct (methods_send_encoded self block) as (_ & S & _). apply S.
Qed.

(** C5.  [infer_action] with [block=False] followed by [fetch_action] has the
    same outcome as [infer_action] with [block=True] on the same handle and
    inputs: the same actions are returned (or neither call returns), and the
    handle is left in the same state. *)
Theorem nonblocking_infer_then_fetch (self : ProcessingModel.t)
  (raw_obs ids policy eps : value) :
  bind (ProcessingModel.infer_action raw_obs ids policy eps false)
    (fun _ => ProcessingModel.fetch_action) self
  = ProcessingModel.infer_action raw_obs ids policy eps true self.
Proof.
  unfold ProcessingModel.infer_action, ProcessingModel.fetch_action,
    ProcessingModel.conn_send, bind, ret.
  cbn.
  destruct (ProcessingModel.conn_recv _) as [t [x | [v self']]]; reflexivity.
Qed.



Lemma check_done_blocks (self : ProcessingModel.t) :
  pending (ProcessingModel.conn self) = [] ->
  ProcessingModel.check_done self = ([], inl NoReply).
Proof.
  intro P. unfold ProcessingModel.check_done, bind.
  rewrite conn_recv_pending, P. reflexivity.
Qed.

End Handle.

Section QuitClaim.

Context {O : Objects} {B M : Type} `{TransitionBuffer B} `{BaseModel.t B M}.

(** A blocking [infer_action] on a handle that was just created returns the
    actions the capability of the worker infers. *)
Lemma blocking_infer_returns_actions (sample_buffer_capacity : Z) (model0 m : M)
  (raw_obs ids policy eps a : value) :
  BaseModel.infer_action model0 raw_obs ids policy eps = inr (a, m) ->
  exists self,
    ProcessingModel.infer_action raw_obs ids policy eps true
      (ProcessingModel.init sample_buffer_capacity model0)
    = ([Put (encode (Infer raw_obs ids policy eps)); Get a], inr (a, self)).
Proof.
  intro I.
  unfold ProcessingModel.infer_action, ProcessingModel.conn_send,
    ProcessingModel.conn_recv, ProcessingModel.init, bind.
  cbn [ProcessingModel.conn after_send peer outgoing nread app].
  unfold model_client. cbn [loop].
  change (VList [VStr "act"; raw_obs; ids; policy; eps])
    with (encode (Infer raw_obs ids policy eps)).
  rewrite dispatch_infer. cbn [model]. rewrite I. cbn.
  eexists. reflexivity.
Qed.

(** A tag that is a tuple of more or less than one item makes the formatting
    of the error message raise: the worker crashes before it prints. *)
Remark tuple_tag_raises (sample_buffer_capacity : Z) (items rest : list value)
  (f : frame B M) :
  List.length items <> 1 ->
  dispatch sample_buffer_capacity (VList (VTuple items :: rest)) f
  = ([], inl TypeError).
Proof.
  intro L. destruct items as [| x [| y items]]; try reflexivity.
  now contradiction L.
Qed.

(** C8.  [quit] sends the Quit command and returns without reading from the
    pipe; the worker, on receiving Quit, leaves its loop without sending
    anything, so its answers are those it gave before the Quit. *)
Theorem quit_no_response (self : ProcessingModel.t)
  (sample_buffer_capacity : Z) (model0 : M) (f : frame B M)
  (inbox rest : list value) :
  ProcessingModel.quit self
  = ([Put (encode Quit)],
     inr (VNone,
          ProcessingModel.Self (after_send (ProcessingModel.conn self) (encode Quit)))) /\
  gets (fst (ProcessingModel.quit self)) = [] /\
  dispatch sample_buffer_capacity (encode Quit) f = ([], inr (Break, f)) /\
  loop sample_buffer_capacity (encode Quit :: rest) f
  = ([Recv (encode Quit)], Returned) /\
  sends (fst (model_client (inbox ++ [encode Quit]) sample_buffer_capacity model0))
  = sends (fst (model_client inbox sample_buffer_capacity model0)).
Proof.
  repeat split.
  apply quit_sends_nothing.
Qed.

End QuitClaim.

(** * More properties of the worker *)

Section WorkerMore.

Context {O : Objects} {B M : Type} `{TransitionBuffer B} `{BaseModel.t B M}.

Variable sample_buffer_capacity : Z.

(** What one dispatch puts on the pipe: one answer when the loop goes on,
    nothing when it ends. *)
Lemma dispatch_channel (cmd : value) (f : frame B M) :
  match dispatch sample_buffer_capacity cmd f with
  | (t, inr (Continue, _)) => exists v, channel t = [Send v]
  | (t, _) => channel t = []
  end.
Proof.
  open_dispatch. destruct f as [m b o i a]; cbn [model sample_buffer obs ids acts].
  split_dispatch; try reflexivity; eexists; reflexivity.
Qed.

Lemma sends_channel (t : list (event B)) : sends (channel t) = sends t.
Proof.
  unfold sends, channel.
  induction t as [| ev t IH]; [reflexivity |].
  destruct ev; cbn; try exact IH; now f_equal.
Qed.

Lemma dispatch_sends (cmd : value) (f : frame B M) :
  match dispatch sample_buffer_capacity cmd f with
  | (t, inr (Continue, _)) => exists v, channel t = [Send v] /\ sends t = [v]
  | (t, _) => channel t = [] /\ sends t = []
  end.
Proof.
  pose proof (dispatch_channel cmd f) as C.
  destruct (dispatch sample_buffer_capacity cmd f) as [t [e | [[|] f1]]].
  - split; [exact C |]. rewrite <- sends_channel, C. reflexivity.
  - destruct C as [v C]. exists v. split; [exact C |].
    rewrite <- sends_channel, C. reflexivity.
  - split; [exact C |]. rewrite <- sends_channel, C. reflexivity.
Qed.

(** X1.  Whatever arrives on the pipe and whatever the capability does, the
    worker answers in lockstep: it sends exactly one answer after each command
    it receives and before it receives the next one.  While it waits it has
    answered every command; once it has stopped (Quit, unknown command or
    exception), the command it stopped on is the only one without an
    answer. *)
Theorem worker_answers_in_lockstep (inbox : list value) (f : frame B M) :
  match loop sample_buffer_capacity inbox f with
  | (t, Waiting _) =>
      channel t = alternate inbox (sends t) /\
      List.length (sends t) = List.length inbox
  | (t, _) =>
      exists n last,
        nth_error inbox n = Some last /\
        List.length (sends t) = n /\
        channel t = alternate (firstn n inbox) (sends t) ++ [Recv last]
  end.
Proof.
  revert f; induction inbox as [| cmd inbox IH]; intro f; cbn [loop].
  - split; reflexivity.
  - pose proof (dispatch_sends cmd f) as D.
    destruct (dispatch sample_buffer_capacity cmd f) as [t1 [e | [[|] f1]]].
    + destruct D as (C & Sn). exists 0, cmd.
      change (channel (Recv cmd :: t1)) with (Recv cmd :: channel t1).
      change (sends (Recv cmd :: t1)) with (sends t1).
      rewrite C, Sn. repeat split.
    + destruct D as (v & C & Sn).
      specialize (IH f1).
      destruct (loop sample_buffer_capacity inbox f1) as [t2 st].
      assert (Ech : channel (Recv cmd :: t1 ++ t2) = Recv cmd :: Send v :: channel t2).
      { change (channel (Recv cmd :: t1 ++ t2))
          with (Recv cmd :: channel (t1 ++ t2)).
        rewrite channel_app, C. reflexivity. }
      assert (Es : sends (Recv cmd :: t1 ++ t2) = v :: sends t2).
      { change (sends (Recv cmd :: t1 ++ t2)) with (sends (t1 ++ t2)).
        rewrite sends_app, Sn. reflexivity. }
      destruct st as [f2 | | e]; rewrite Ech, Es.
      * destruct IH as (IC & IL). cbn [alternate List.length].
        rewrite <- IC, IL. split; reflexivity.
      * destruct IH as (n & last & N & L & IC).
        exists (S n), last. cbn [nth_error firstn alternate List.length app].
        rewrite L, IC. repeat split; assumption.
      * destruct IH as (n & last & N & L & IC).
        exists (S n), last. cbn [nth_error firstn alternate List.length app].
        rewrite L, IC. repeat split; assumption.
    + destruct D as (C & Sn). exists 0, cmd.
      change (channel (Recv cmd :: t1)) with (Recv cmd :: channel t1).
      change (sends (Recv cmd :: t1)) with (sends t1).
      rewrite C, Sn. repeat split.
Qed.

(** X2.  A worker that has stopped stays stopped: commands that arrive after
    the one it stopped on are never received, and its trace and its answers
    are final. *)
Theorem stopped_worker_ignores_later_commands (xs ys : list value)
  (f : frame B M) :
  (forall f', snd (loop sample_buffer_capacity xs f) <> Waiting f') ->
  loop sample_buffer_capacity (xs ++ ys) f = loop sample_buffer_capacity xs f.
Proof.
  intro NW. rewrite loop_app.
  destruct (loop sample_buffer_capacity xs f) as [t [f' | | e]]; try reflexivity.
  exfalso. exact (NW f' eq_refl).
Qed.

(** X3.  Quit is final wherever it comes: the worker never waits for another
    command after a Quit, and what was sent behind the Quit makes no
    difference to what the worker does. *)
Theorem quit_is_final (model0 : M) (inbox more : list value) :
  (forall f,
      snd (model_client (inbox ++ [encode Quit]) sample_buffer_capacity model0)
      <> Waiting f) /\
  model_client (inbox ++ encode Quit :: more) sample_buffer_capacity model0
  = model_client (inbox ++ [encode Quit]) sample_buffer_capacity model0.
Proof.
  unfold model_client.
  rewrite !loop_app.
  destruct (loop sample_buffer_capacity inbox _) as [t [f' | | e]];
    cbn [loop]; rewrite ?dispatch_quit; cbn; split; try reflexivity;
    intros f E; discriminate E.
Qed.

Lemma dispatch_act_binds (cmd : value) (f f' : frame B M)
  (t : list (event B)) (k : control) :
  is_act cmd = true ->
  dispatch sample_buffer_capacity cmd f = (t, inr (k, f')) ->
  bound (obs f') = true /\ bound (ids f') = true /\ bound (acts f') = true.
Proof.
  unfold is_act. open_dispatch.
  destruct f as [m b o i a]; cbn [model sample_buffer obs ids acts].
  destruct (getitem cmd 0) as [x | tag]; [discriminate |].
  destruct (eq_str tag "act") as [e | [|]]; [discriminate | | discriminate].
  intros _.
  split_dispatch; intro E; try discriminate; injection E as <- <- <-;
    repeat split.
Qed.

Lemma loop_binds (inbox : list value) :
  forall (f f' : frame B M) (t : list (event B)),
    loop sample_buffer_capacity inbox f = (t, Waiting f') ->
    bound (obs f') = bound (obs f) || existsb is_act inbox /\
    bound (ids f') = bound (ids f) || existsb is_act inbox /\
    bound (acts f') = bound (acts f) || existsb is_act inbox.
Proof.
  induction inbox as [| cmd inbox IH]; intros f f' t L; cbn [loop] in L.
  - injection L as <- <-. cbn. now rewrite !orb_false_r.
  - destruct (dispatch sample_buffer_capacity cmd f) as [t1 [x | [[|] f1]]] eqn:D;
      try discriminate.
    destruct (loop sample_buffer_capacity inbox f1) as [t2 s] eqn:L2.
    injection L as <- ->.
    destruct (IH _ _ _ L2) as (Io & Ii & Ia). rewrite Io, Ii, Ia.
    cbn [existsb].
    destruct (is_act cmd) eqn:A.
    + destruct (dispatch_act_binds _ _ _ _ _ A D) as (-> & -> & ->).
      cbn. now rewrite !orb_true_r.
    + destruct (dispatch_keeps_locals _ _ _ _ _ _ A D) as (-> & -> & ->).
      repeat split.
Qed.

(** X4.  While the worker waits, its locals [obs], [ids] and [acts] are
    bound exactly when an 'act' command has been received: all three or none,
    and once bound they stay bound.  So a Sample command can be served exactly
    when an 'act' command came before it. *)
Theorem carried_step_bound_iff_act_seen (model0 : M) (inbox : list value)
  (t : list (event B)) (f : frame B M) :
  model_client inbox sample_buffer_capacity model0 = (t, Waiting f) ->
  bound (obs f) = existsb is_act inbox /\
  bound (ids f) = existsb is_act inbox /\
  bound (acts f) = existsb is_act inbox.
Proof.
  unfold model_client.
  destruct (loop sample_buffer_capacity inbox _) as [t1 s] eqn:L.
  intro E. injection E as <- ->.
  exact (loop_binds _ _ _ _ L).
Qed.

Lemma replay_app (t t' : list (event B)) :
  forall b : B,
    replay b (t ++ t') =
    match replay b t with
    | inr b' => replay b' t'
    | inl e => inl e
    end.
Proof.
  induction t as [| ev t IH]; intro b; [reflexivity |].
  destruct ev as [| | | | | | i o a r l | |]; cbn [app replay]; try apply IH.
  destruct (record_step b i o a r l); [reflexivity | apply IH].
Qed.

Lemma dispatch_replay (cmd : value) (f f' : frame B M) (t : list (event B))
  (k : control) :
  dispatch sample_buffer_capacity cmd f = (t, inr (k, f')) ->
  replay (sample_buffer f) t = inr (sample_buffer f').
Proof.
  open_dispatch.
  destruct f as [m b o i a]; cbn [model sample_buffer obs ids acts].
  split_dispatch; intro E; try discriminate; injection E as <- <- <-;
    cbn in *;
    repeat match goal with
           | R : record_step _ _ _ _ _ _ = _ |- _ => rewrite R
           end;
    reflexivity.
Qed.

Lemma loop_replay (inbox : list value) :
  forall (f f' : frame B M) (t : list (event B)),
    loop sample_buffer_capacity inbox f = (t, Waiting f') ->
    replay (sample_buffer f) t = inr (sample_buffer f').
Proof.
  induction inbox as [| cmd inbox IH]; intros f f' t L; cbn [loop] in L.
  - injection L as <- <-. reflexivity.
  - destruct (dispatch sample_buffer_capacity cmd f) as [t1 [x | [[|] f1]]] eqn:D;
      try discriminate.
    destruct (loop sample_buffer_capacity inbox f1) as [t2 s] eqn:L2.
    injection L as <- ->.
    cbn [replay]. rewrite replay_app, (dispatch_replay _ _ _ _ _ D).
    eapply IH; eassumption.
Qed.

Lemma dispatch_new_buffer (cmd : value) (f : frame B M) (c : Z) :
  In (NewBuffer c) (fst (dispatch sample_buffer_capacity cmd f)) ->
  c = sample_buffer_capacity.
Proof.
  open_dispatch.
  destruct f as [m b o i a]; cbn [model sample_buffer obs ids acts].
  split_dispatch; cbn;
    repeat (intros [E | E]; [try discriminate E; now injection E | revert E]);
    intros [].
Qed.

Lemma loop_new_buffer (inbox : list value) (c : Z) :
  forall f : frame B M,
    In (NewBuffer c) (fst (loop sample_buffer_capacity inbox f)) ->
    c = sample_buffer_capacity.
Proof.
  induction inbox as [| cmd inbox IH]; intro f; cbn [loop]; [intros [] |].
  pose proof (dispatch_new_buffer cmd f c) as D.
  destruct (dispatch sample_buffer_capacity cmd f) as [t1 [x | [[|] f1]]];
    cbn [fst] in *.
  - intros [E | I]; [discriminate E | auto].
  - specialize (IH f1).
    destruct (loop sample_buffer_capacity inbox f1) as [t2 s]. cbn [fst] in *.
    intros [E | I]; [discriminate E |].
    apply in_app_or in I as [I | I]; auto.
  - intros [E | I]; [discriminate E | auto].
Qed.

(** X5.  Whatever commands arrive, the buffer a waiting worker holds is a
    fresh buffer of the configured capacity with exactly the steps recorded
    since the last construction (at start-up or after a train) added in
    order: nothing else ever changes the buffer, and every construction uses
    the configured capacity. *)
Theorem buffer_is_fresh_plus_recorded_steps (model0 : M) (inbox : list value)
  (t : list (event B)) (f : frame B M) :
  model_client inbox sample_buffer_capacity model0 = (t, Waiting f) ->
  (forall b0, replay b0 t = inr (sample_buffer f)) /\
  (forall c, In (NewBuffer c) t -> c = sample_buffer_capacity).
Proof.
  unfold model_client.
  destruct (loop sample_buffer_capacity inbox _) as [t1 s] eqn:L.
  intro E. injection E as <- ->.
  split.
  - intro b0. cbn [replay]. exact (loop_replay _ _ _ _ L).
  - intros c [E | I]; [now injection E |].
    apply (loop_new_buffer inbox c
             (Frame model0 (EpisodesBuffer sample_buffer_capacity) None None None)).
    rewrite L. exact I.
Qed.

(** X6.  A command the worker cannot take apart crashes it before anything
    else happens: when [cmd[0]] raises (an empty list, tuple or string gives
    IndexError; None, a bool or an int gives TypeError), and when the payload
    of a known tag is shorter than its branch reads (IndexError).  The
    capability is not called, the buffer is not touched, nothing is sent, and
    the commands behind it are never received. *)
Theorem malformed_command_crashes_worker (rest : list value) (f : frame B M) :
  (forall cmd e,
      getitem cmd 0 = inl e ->
      loop sample_buffer_capacity (cmd :: rest) f = ([Recv cmd], Crashed e)) /\
  (forall tag payload,
      In tag ["act"; "train"; "sample"; "save"; "load"] ->
      List.length payload < arity tag ->
      loop sample_buffer_capacity (VList (VStr tag :: payload) :: rest) f
      = ([Recv (VList (VStr tag :: payload))], Crashed IndexError)) /\
  getitem (VList []) 0 = inl IndexError /\
  getitem (VTuple []) 0 = inl IndexError /\
  getitem (VStr "") 0 = inl IndexError /\
  getitem VNone 0 = inl TypeError /\
  (forall z, getitem (VInt z) 0 = inl TypeError) /\
  (forall b, getitem (VBool b) 0 = inl TypeError).
Proof.
  split; [| split; [| repeat split]].
  - intros cmd e G. cbn [loop]. unfold dispatch, bind, lift, raise.
    rewrite G. reflexivity.
  - intros tag payload I L.
    destruct f as [m b o i a].
    cbn in I.
    destruct I as [<- | [<- | [<- | [<- | [<- | []]]]]];
      change (arity _) with 4 in L || change (arity _) with 3 in L
      || change (arity _) with 2 in L || change (arity _) with 1 in L;
      do 4 (destruct payload as [| ? payload];
            [try reflexivity; cbn in L; exfalso; lia |]);
      cbn in L; exfalso; lia.
Qed.

(** X7.  Payload items beyond the ones a branch reads are ignored: a command
    with extra items behind a well-formed one is dispatched exactly like the
    well-formed one, and a tuple is dispatched like the list of the same
    items. *)
Theorem extra_payload_is_ignored (c : Command) (items extra : list value)
  (f : frame B M) :
  encode c = VList items ->
  dispatch sample_buffer_capacity (VList (items ++ extra)) f
  = dispatch sample_buffer_capacity (encode c) f /\
  dispatch sample_buffer_capacity (VTuple (items ++ extra)) f
  = dispatch sample_buffer_capacity (encode c) f.
Proof.
  destruct c; cbn [encode]; intro E; injection E as <-; split; reflexivity.
Qed.

(** X8.  An exception of the capability or of the buffer is not caught: it
    ends the worker right after the call.  Nothing is sent for the command, a
    failed train leaves no fresh buffer behind, and later commands are never
    received. *)
Theorem capability_failure_crashes_worker (rest : list value) (f : frame B M)
  (e : exn) :
  (forall o i policy eps,
      BaseModel.infer_action (model f) o i policy eps = inl e ->
      loop sample_buffer_capacity (encode (Infer o i policy eps) :: rest) f
      = ([Recv (encode (Infer o i policy eps)); CallInfer o i policy eps],
         Crashed e)) /\
  (forall print_every,
      BaseModel.train (model f) (sample_buffer f) print_every = inl e ->
      loop sample_buffer_capacity (encode (Train print_every) :: rest) f
      = ([Recv (encode (Train print_every));
          CallTrain (sample_buffer f) print_every],
         Crashed e)) /\
  (forall savedir n_iter,
      BaseModel.save (model f) savedir n_iter = inl e ->
      loop sample_buffer_capacity (encode (Save savedir n_iter) :: rest) f
      = ([Recv (encode (Save savedir n_iter)); CallSave savedir n_iter],
         Crashed e)) /\
  (forall savedir n_iter name,
      BaseModel.load (model f) savedir n_iter name = inl e ->
      loop sample_buffer_capacity (encode (Load savedir n_iter name) :: rest) f
      = ([Recv (encode (Load savedir n_iter name));
          CallLoad savedir n_iter name],
         Crashed e)) /\
  (forall i o a rewards alives,
      ids f = Some i -> obs f = Some o -> acts f = Some a ->
      record_step (sample_buffer f) i o a rewards alives = inl e ->
      loop sample_buffer_capacity (encode (Sample rewards alives) :: rest) f
      = ([Recv (encode (Sample rewards alives));
          CallRecord i o a rewards alives],
         Crashed e)).
Proof.
  repeat split.
  - intros o i policy eps R. cbn [loop]. rewrite dispatch_infer. now rewrite R.
  - intros print_every R. cbn [loop]. rewrite dispatch_train. now rewrite R.
  - intros savedir n_iter R. cbn [loop]. rewrite dispatch_save. now rewrite R.
  - intros savedir n_iter name R. cbn [loop]. rewrite dispatch_load.
    now rewrite R.
  - intros i o a rewards alives Ei Eo Ea R. cbn [loop].
    rewrite dispatch_sample. now rewrite Ei, Eo, Ea, R.
Qed.

End WorkerMore.

(** * The two ends together *)

Section System.

Context {O : Objects} {B M : Type} `{TransitionBuffer B} `{BaseModel.t B M}.

Variable sample_buffer_capacity : Z.
Variable model0 : M.

Local Abbreviation client := (model_client (B:=B) (M:=M)).

(** What one more command does to a worker that waits. *)
Lemma model_client_snoc (xs : list value) (cmd : value) (f : frame B M) :
  snd (client xs sample_buffer_capacity model0) = Waiting f ->
  client (xs ++ [cmd]) sample_buffer_capacity model0
  = (fst (client xs sample_buffer_capacity model0)
       ++ Recv cmd :: fst (dispatch sample_buffer_capacity cmd f),
     match snd (dispatch sample_buffer_capacity cmd f) with
     | inl e => Crashed e
     | inr (Break, _) => Returned
     | inr (Continue, f') => Waiting f'
     end).
Proof.
  unfold model_client. rewrite loop_app.
  destruct (loop sample_buffer_capacity xs _) as [t s]. cbn [snd fst].
  intros ->. cbn [loop].
  destruct (dispatch sample_buffer_capacity cmd f) as [t1 [e | [[|] f']]];
    cbn [fst snd]; rewrite ?app_nil_r; reflexivity.
Qed.

Lemma serves_init :
  serves sample_buffer_capacity model0
    (ProcessingModel.init sample_buffer_capacity model0)
    (Frame model0 (EpisodesBuffer sample_buffer_capacity) None None None).
Proof. repeat split. Qed.

(** A command sent to a worker that waits, followed by a read: when the
    dispatch goes on, the read returns the answer and the worker waits
    again. *)
Lemma round_trip (self : ProcessingModel.t) (f f' : frame B M) (cmd : value)
  (t : list (event B)) :
  serves sample_buffer_capacity model0 self f ->
  dispatch sample_buffer_capacity cmd f = (t, inr (Continue, f')) ->
  exists r,
    sends t = [r] /\
    ProcessingModel.conn_recv
      (ProcessingModel.Self (after_send (ProcessingModel.conn self) cmd))
    = ([Get r],
       inr (r, ProcessingModel.Self
                 (after_recv (after_send (ProcessingModel.conn self) cmd)))) /\
    serves sample_buffer_capacity model0
      (ProcessingModel.Self
         (after_recv (after_send (ProcessingModel.conn self) cmd))) f'.
Proof.
  intros (P & W & N) D.
  pose proof (dispatch_sends sample_buffer_capacity cmd f) as S.
  rewrite D in S. destruct S as (r & _ & S).
  pose proof (model_client_snoc _ cmd _ W) as Snoc. rewrite D in Snoc.
  cbn [fst snd] in Snoc.
  assert (E : peer (ProcessingModel.conn self)
                (outgoing (ProcessingModel.conn self) ++ [cmd])
              = peer (ProcessingModel.conn self)
                  (outgoing (ProcessingModel.conn self)) ++ [r]).
  { rewrite P. cbv beta. rewrite Snoc. cbn [fst].
    rewrite sends_app. f_equal. cbn. exact S. }
  exists r. split; [exact S |]. split.
  - unfold ProcessingModel.conn_recv.
    cbn [ProcessingModel.conn after_send peer outgoing nread].
    rewrite E, N, nth_error_app2, Nat.sub_diag by apply Nat.le_refl.
    reflexivity.
  - unfold serves.
    cbn [ProcessingModel.conn after_recv after_send peer outgoing nread].
    repeat split.
    + exact P.
    + rewrite Snoc. reflexivity.
    + rewrite E, length_app, N. cbn. lia.
Qed.

(** A command sent to a worker that waits, followed by a read: when the
    dispatch ends the loop, no answer ever comes. *)
Lemma no_reply (self : ProcessingModel.t) (f : frame B M) (cmd : value) :
  serves sample_buffer_capacity model0 self f ->
  (forall f', snd (dispatch sample_buffer_capacity cmd f) <> inr (Continue, f')) ->
  ProcessingModel.conn_recv
    (ProcessingModel.Self (after_send (ProcessingModel.conn self) cmd))
  = ([], inl NoReply).
Proof.
  intros (P & W & N) NC.
  pose proof (dispatch_sends sample_buffer_capacity cmd f) as S.
  pose proof (model_client_snoc _ cmd _ W) as Snoc.
  destruct (dispatch sample_buffer_capacity cmd f) as [t [e | [[|] f']]];
    cbn [fst snd] in *;
    try (exfalso; exact (NC f' eq_refl));
    destruct S as (_ & S);
    unfold ProcessingModel.conn_recv;
    cbn [ProcessingModel.conn after_send peer outgoing nread];
    rewrite P; cbv beta; rewrite Snoc; cbn [fst];
    rewrite sends_app;
    change (sends (Recv cmd :: t)) with (sends t); rewrite S, app_nil_r;
    rewrite P in N; cbv beta in N; rewrite N;
    rewrite (proj2 (nth_error_None _ _)) by apply Nat.le_refl;
    reflexivity.
Qed.

Ltac call_method R :=
  unfold ProcessingModel.infer_action, ProcessingModel.train,
    ProcessingModel.sample_step, ProcessingModel.save, ProcessingModel.load,
    ProcessingModel.fetch_action, ProcessingModel.fetch_train,
    ProcessingModel.check_done, ProcessingModel.conn_send, bind, ret, raise;
  cbv beta iota; cbn [encode] in R; rewrite R; reflexivity.

(** X9.  A blocking [infer_action] on a handle whose worker waits returns the
    actions the capability infers for the given observation, ids, policy and
    eps; afterwards the worker waits again, with its model as the capability
    left it and with this observation, these ids and these actions carried
    over for the next Sample. *)
Theorem blocking_infer_action_round_trip (self : ProcessingModel.t)
  (f : frame B M) (raw_obs ids policy eps a : value) (m : M) :
  serves sample_buffer_capacity model0 self f ->
  BaseModel.infer_action (model f) raw_obs ids policy eps = inr (a, m) ->
  let self' :=
    ProcessingModel.Self
      (after_recv (after_send (ProcessingModel.conn self)
                     (encode (Infer raw_obs ids policy eps)))) in
  ProcessingModel.infer_action raw_obs ids policy eps true self
  = ([Put (encode (Infer raw_obs ids policy eps)); Get a], inr (a, self')) /\
  serves sample_buffer_capacity model0 self'
    (Frame m (sample_buffer f) (Some raw_obs) (Some ids) (Some a)).
Proof.
  intros Sv I self'.
  assert (D := dispatch_infer sample_buffer_capacity raw_obs ids policy eps f).
  rewrite I in D.
  destruct (round_trip _ _ _ _ _ Sv D) as (r & S & R & Sv').
  injection S as <-.
  split; [| exact Sv'].
  call_method R.
Qed.

(** X10.  A blocking [train] on a handle whose worker waits returns the tuple
    (loss, value) the capability's train returns for the worker's buffer and
    the given log cadence; afterwards the worker waits again with a fresh
    buffer of the configured capacity. *)
Theorem blocking_train_round_trip (self : ProcessingModel.t) (f : frame B M)
  (print_every total_loss val : value) (m : M) :
  serves sample_buffer_capacity model0 self f ->
  BaseModel.train (model f) (sample_buffer f) print_every
  = inr ((total_loss, val), m) ->
  let self' :=
    ProcessingModel.Self
      (after_recv (after_send (ProcessingModel.conn self)
                     (encode (Train print_every)))) in
  ProcessingModel.train print_every true self
  = ([Put (encode (Train print_every)); Get (VTuple [total_loss; val])],
     inr (VTuple [total_loss; val], self')) /\
  serves sample_buffer_capacity model0 self'
    (Frame m (EpisodesBuffer sample_buffer_capacity) (obs f) (ids f) (acts f)).
Proof.
  intros Sv T self'.
  assert (D := dispatch_train sample_buffer_capacity print_every f).
  rewrite T in D.
  destruct (round_trip _ _ _ _ _ Sv D) as (r & S & R & Sv').
  injection S as <-.
  split; [| exact Sv'].
  call_method R.
Qed.

(** X11.  A blocking [sample_step] after an infer call returns None (its
    [check_done] passes) once the worker has recorded the step: the buffer of
    the waiting worker is the one [record_step] returned for the carried ids,
    observation and actions and the given rewards and alive flags. *)
Theorem blocking_sample_step_round_trip (self : ProcessingModel.t)
  (f : frame B M) (i o a rewards alives : value) (b : B) :
  serves sample_buffer_capacity model0 self f ->
  ids f = Some i -> obs f = Some o -> acts f = Some a ->
  record_step (sample_buffer f) i o a rewards alives = inr b ->
  let self' :=
    ProcessingModel.Self
      (after_recv (after_send (ProcessingModel.conn self)
                     (encode (Sample rewards alives)))) in
  ProcessingModel.sample_step rewards alives true self
  = ([Put (encode (Sample rewards alives)); Get (VStr "done")],
     inr (VNone, self')) /\
  serves sample_buffer_capacity model0 self'
    (Frame (model f) b (obs f) (ids f) (acts f)).
Proof.
  intros Sv Ei Eo Ea Rec self'.
  assert (D := dispatch_sample sample_buffer_capacity rewards alives f).
  rewrite Ei, Eo, Ea, Rec in D.
  destruct (round_trip _ _ _ _ _ Sv D) as (r & S & R & Sv').
  injection S as <-.
  split; [| rewrite Eo, Ei, Ea; exact Sv'].
  call_method R.
Qed.

(** X12.  Blocking [save] and [load] on a handle whose worker waits return
    None (their [check_done] passes) when the capability's save or load
    returns; the model of the waiting worker is the one the capability left,
    the buffer and the carried step are untouched. *)
Theorem blocking_save_load_round_trip (self : ProcessingModel.t)
  (f : frame B M) (save_dir epoch name : value) (m : M) :
  serves sample_buffer_capacity model0 self f ->
  (BaseModel.save (model f) save_dir epoch = inr m ->
   let self' :=
     ProcessingModel.Self
       (after_recv (after_send (ProcessingModel.conn self)
                      (encode (Save save_dir epoch)))) in
   ProcessingModel.save save_dir epoch true self
   = ([Put (encode (Save save_dir epoch)); Get (VStr "done")],
      inr (VNone, self')) /\
   serves sample_buffer_capacity model0 self'
     (Frame m (sample_buffer f) (obs f) (ids f) (acts f))) /\
  (BaseModel.load (model f) save_dir epoch name = inr m ->
   let self' :=
     ProcessingModel.Self
       (after_recv (after_send (ProcessingModel.conn self)
                      (encode (Load save_dir epoch name)))) in
   ProcessingModel.load save_dir epoch name true self
   = ([Put (encode (Load save_dir epoch name)); Get (VStr "done")],
      inr (VNone, self')) /\
   serves sample_buffer_capacity model0 self'
     (Frame m (sample_buffer f) (obs f) (ids f) (acts f))).
Proof.
  intros Sv. split.
  - intros Sa self'.
    assert (D := dispatch_save sample_buffer_capacity save_dir epoch f).
    rewrite Sa in D.
    destruct (round_trip _ _ _ _ _ Sv D) as (r & S & R & Sv').
    injection S as <-.
    split; [| exact Sv'].
    call_method R.
  - intros L self'.
    assert (D := dispatch_load sample_buffer_capacity save_dir epoch name f).
    rewrite L in D.
    destruct (round_trip _ _ _ _ _ Sv D) as (r & S & R & Sv').
    injection S as <-.
    split; [| exact Sv'].
    call_method R.
Qed.

(** X13.  A blocking [sample_step] before any infer call never returns
    normally: the worker crashes on the Sample command, so [check_done] gets
    no answer.  This is the case for the first call on a new handle. *)
Theorem sample_step_before_infer_gets_no_reply (self : ProcessingModel.t)
  (f : frame B M) (rewards alives : value) :
  serves sample_buffer_capacity model0 self f ->
  ids f = None ->
  ProcessingModel.sample_step rewards alives true self
  = ([Put (encode (Sample rewards alives))], inl NoReply) /\
  ProcessingModel.sample_step rewards alives true
    (ProcessingModel.init sample_buffer_capacity model0)
  = ([Put (encode (Sample rewards alives))], inl NoReply).
Proof.
  assert (G : forall self f,
             serves sample_buffer_capacity model0 self f ->
             ids f = None ->
             ProcessingModel.sample_step rewards alives true self
             = ([Put (encode (Sample rewards alives))], inl NoReply)).
  { intros self1 f1 Sv Ei.
    assert (R := no_reply self1 f1 (encode (Sample rewards alives)) Sv).
    rewrite dispatch_sample, Ei in R. cbn [snd] in R.
    specialize (R ltac:(discriminate)).
    call_method R. }
  intros Sv Ei. split.
  - exact (G _ _ Sv Ei).
  - exact (G _ _ serves_init eq_refl).
Qed.

(** X14.  The reading methods do not check which command an answer belongs
    to.  After a non-blocking [train], [check_done] takes train's answer and
    raises AssertionError, since a tuple is not the completion marker; after a
    non-blocking [save], [fetch_action] returns the completion marker as if
    it were the actions. *)
Theorem answers_are_not_matched_to_calls (self : ProcessingModel.t)
  (f : frame B M) (print_every total_loss val save_dir epoch : value)
  (m m' : M) :
  serves sample_buffer_capacity model0 self f ->
  BaseModel.train (model f) (sample_buffer f) print_every
  = inr ((total_loss, val), m) ->
  BaseModel.save (model f) save_dir epoch = inr m' ->
  bind (ProcessingModel.train print_every false)
    (fun _ => ProcessingModel.check_done) self
  = ([Put (encode (Train print_every)); Get (VTuple [total_loss; val])],
     inl (Raise AssertionError)) /\
  fst (bind (ProcessingModel.save save_dir epoch false)
         (fun _ => ProcessingModel.fetch_action) self)
  = [Put (encode (Save save_dir epoch)); Get (VStr "done")] /\
  exists self',
    snd (bind (ProcessingModel.save save_dir epoch false)
           (fun _ => ProcessingModel.fetch_action) self)
    = inr (VStr "done", self').
Proof.
  intros Sv T Sa.
  assert (Dt := dispatch_train sample_buffer_capacity print_every f).
  rewrite T in Dt.
  destruct (round_trip _ _ _ _ _ Sv Dt) as (r & S & R & _).
  injection S as <-.
  assert (Ds := dispatch_save sample_buffer_capacity save_dir epoch f).
  rewrite Sa in Ds.
  destruct (round_trip _ _ _ _ _ Sv Ds) as (r & S & R' & _).
  injection S as <-.
  split; [call_method R |].
  split; [call_method R' |].
  eexists. call_method R'.
Qed.

Lemma serves_nothing_pending (self : ProcessingModel.t) (f : frame B M) :
  serves sample_buffer_capacity model0 self f ->
  pending (ProcessingModel.conn self) = [].
Proof.
  intros (_ & _ & N). unfold pending. rewrite N. apply skipn_all.
Qed.

(** After a command that the worker answers, sent to a worker that waits with
    nothing pending, exactly the answer is pending. *)
Lemma one_answer_pending (self : ProcessingModel.t) (f f' : frame B M)
  (cmd r : value) (t : list (event B)) :
  serves sample_buffer_capacity model0 self f ->
  dispatch sample_buffer_capacity cmd f = (t, inr (Continue, f')) ->
  sends t = [r] ->
  pending (after_send (ProcessingModel.conn self) cmd) = [r].
Proof.
  intros Sv D S.
  destruct (round_trip _ _ _ _ _ Sv D) as (r' & S' & R & Sv').
  rewrite S in S'. injection S' as <-.
  rewrite conn_recv_pending in R.
  cbn [ProcessingModel.conn] in R.
  destruct (pending (after_send (ProcessingModel.conn self) cmd)) as [| v q] eqn:P;
    [discriminate R |].
  injection R as ->.
  apply serves_nothing_pending in Sv'. cbn [ProcessingModel.conn] in Sv'.
  rewrite pending_after_recv, P in Sv'. cbn [tl] in Sv'. now subst q.
Qed.

(** C10, as amended.  [infer_action] and [train] with [block=False] send
    their command and return None without reading from the pipe.  The answer
    stays pending until a later call that reads takes it: [fetch_action],
    [fetch_train] and [check_done], and a blocking [infer_action] as well,
    each take exactly the oldest pending answer and nothing else.  On a
    handle whose worker waits with nothing pending, the answer to the
    non-blocking call is the only one pending, and [fetch_action] (after
    [infer_action]) or [fetch_train] (after [train]) returns it. *)
Theorem nonblocking_calls_do_not_read (self : ProcessingModel.t)
  (raw_obs ids policy eps print_every : value) :
  ProcessingModel.infer_action raw_obs ids policy eps false self
  = ([Put (encode (Infer raw_obs ids policy eps))],
     inr (VNone,
          ProcessingModel.Self
            (after_send (ProcessingModel.conn self)
               (encode (Infer raw_obs ids policy eps))))) /\
  ProcessingModel.train print_every false self
  = ([Put (encode (Train print_every))],
     inr (VNone,
          ProcessingModel.Self
            (after_send (ProcessingModel.conn self)
               (encode (Train print_every))))) /\
  (forall self' : ProcessingModel.t,
      let c := ProcessingModel.conn self' in
      ProcessingModel.fetch_action self'
      = match pending c with
        | v :: _ => ([Get v], inr (v, ProcessingModel.Self (after_recv c)))
        | [] => ([], inl NoReply)
        end /\
      ProcessingModel.fetch_train self'
      = match pending c with
        | v :: _ => ([Get v], inr (v, ProcessingModel.Self (after_recv c)))
        | [] => ([], inl NoReply)
        end /\
      ProcessingModel.check_done self'
      = match pending c with
        | v :: _ =>
            match eq_str v "done" with
            | inr true =>
                ([Get v], inr (VNone, ProcessingModel.Self (after_recv c)))
            | inr false => ([Get v], inl (Raise AssertionError))
            | inl e => ([Get v], inl (Raise e))
            end
        | [] => ([], inl NoReply)
        end /\
      ProcessingModel.infer_action raw_obs ids policy eps true self'
      = match pending (after_send c (encode (Infer raw_obs ids policy eps))) with
        | v :: _ =>
            ([Put (encode (Infer raw_obs ids policy eps)); Get v],
             inr (v, ProcessingModel.Self
                       (after_recv
                          (after_send c (encode (Infer raw_obs ids policy eps))))))
        | [] => ([Put (encode (Infer raw_obs ids policy eps))], inl NoReply)
        end /\
      pending (after_recv c) = tl (pending c)) /\
  (forall f : frame B M,
      serves sample_buffer_capacity model0 self f ->
      (forall a m,
          BaseModel.infer_action (model f) raw_obs ids policy eps = inr (a, m) ->
          pending (after_send (ProcessingModel.conn self)
                     (encode (Infer raw_obs ids policy eps))) = [a] /\
          bind (ProcessingModel.infer_action raw_obs ids policy eps false)
            (fun _ => ProcessingModel.fetch_action) self
          = ([Put (encode (Infer raw_obs ids policy eps)); Get a],
             inr (a, ProcessingModel.Self
                       (after_recv
                          (after_send (ProcessingModel.conn self)
                             (encode (Infer raw_obs ids policy eps))))))) /\
      (forall total_loss val m,
          BaseModel.train (model f) (sample_buffer f) print_every
          = inr ((total_loss, val), m) ->
          pending (after_send (ProcessingModel.conn self)
                     (encode (Train print_every))) = [VTuple [total_loss; val]] /\
          bind (ProcessingModel.train print_every false)
            (fun _ => ProcessingModel.fetch_train) self
          = ([Put (encode (Train print_every)); Get (VTuple [total_loss; val])],
             inr (VTuple [total_loss; val],
                  ProcessingModel.Self
                    (after_recv
                       (after_send (ProcessingModel.conn self)
                          (encode (Train print_every)))))))).
Proof.
  split; [reflexivity |]. split; [reflexivity |]. split.
  - intros self' c. subst c. repeat split.
    + apply conn_recv_pending.
    + apply conn_recv_pending.
    + unfold ProcessingModel.check_done, bind, ret, raise.
      rewrite conn_recv_pending.
      destruct (pending _) as [| v q]; [reflexivity |].
      destruct (eq_str v "done") as [? | [|]]; reflexivity.
    + unfold ProcessingModel.infer_action, ProcessingModel.conn_send, bind.
      cbv beta iota. rewrite conn_recv_pending. cbn [ProcessingModel.conn].
      destruct (pending _); reflexivity.
    + apply pending_after_recv.
  - intros f Sv. split.
    + intros a m I.
      assert (D := dispatch_infer sample_buffer_capacity raw_obs ids policy eps f).
      rewrite I in D.
      destruct (round_trip _ _ _ _ _ Sv D) as (r & S & R & _).
      injection S as <-.
      split; [exact (one_answer_pending _ _ _ _ _ _ Sv D eq_refl) |].
      call_method R.
    + intros total_loss val m T.
      assert (D := dispatch_train sample_buffer_capacity print_every f).
      rewrite T in D.
      destruct (round_trip _ _ _ _ _ Sv D) as (r & S & R & _).
      injection S as <-.
      split; [exact (one_answer_pending _ _ _ _ _ _ Sv D eq_refl) |].
      call_method R.
Qed.

End System.

(** * The two modes of a call, and construction *)

Section Modes.

Context {O : Objects}.

(** X16.  For [train], [sample_step], [save] and [load] too, the
    non-blocking call followed by the method that reads its answer
    ([fetch_train], [check_done]) has the same outcome as the blocking call:
    same commands sent, same answer read, same result or same failure. *)
Theorem nonblocking_then_read_is_blocking (self : ProcessingModel.t)
  (print_every rewards alives save_dir epoch name : value) :
  bind (ProcessingModel.train print_every false)
    (fun _ => ProcessingModel.fetch_train) self
  = ProcessingModel.train print_every true self /\
  bind (ProcessingModel.sample_step rewards alives false)
    (fun _ => ProcessingModel.check_done) self
  = ProcessingModel.sample_step rewards alives true self /\
  bind (ProcessingModel.save save_dir epoch false)
    (fun _ => ProcessingModel.check_done) self
  = ProcessingModel.save save_dir epoch true self /\
  bind (ProcessingModel.load save_dir epoch name false)
    (fun _ => ProcessingModel.check_done) self
  = ProcessingModel.load save_dir epoch name true self.
Proof.
  unfold ProcessingModel.train, ProcessingModel.sample_step,
    ProcessingModel.save, ProcessingModel.load, ProcessingModel.fetch_train,
    ProcessingModel.check_done, ProcessingModel.conn_send, bind, ret, raise.
  cbv beta iota.
  repeat split; rewrite conn_recv_pending;
    (destruct (pending _) as [| v q]; [reflexivity |]);
    try destruct (eq_str v "done") as [? | [|]]; reflexivity.
Qed.

End Modes.

Section Construction.

Context {O : Objects} {B M : Type} `{TransitionBuffer B} `{BaseModel.t B M}.

(** X17.  Constructing a handle without a model class raises AssertionError
    (nothing is started).  With a class whose constructor returns, the handle
    is connected to a worker that holds the constructed model and a fresh
    buffer of the given capacity, has bound none of [obs], [ids], [acts], and
    waits for its first command.  When the constructor raises, the worker
    crashes before it constructs a buffer or receives anything. *)
Theorem construct_starts_waiting_worker (env handle name : value)
  (sample_buffer_capacity : Z) (kwargs : dict) :
  construct (B:=B) (M:=M) env handle name sample_buffer_capacity None kwargs
  = inl AssertionError /\
  (forall (cls : dict -> exn + M) (model0 : M),
      cls (worker_kwargs env handle name kwargs) = inr model0 ->
      exists self,
        construct env handle name sample_buffer_capacity (Some cls) kwargs
        = inr self /\
        serves sample_buffer_capacity model0 self
          (Frame model0 (EpisodesBuffer sample_buffer_capacity) None None None)) /\
  (forall (cls : dict -> exn + M) (e : exn) (inbox : list value),
      cls (worker_kwargs env handle name kwargs) = inl e ->
      model_client_from (B:=B) inbox sample_buffer_capacity cls
        (worker_kwargs env handle name kwargs)
      = ([], Crashed e)).
Proof.
  split; [reflexivity |]. split.
  - intros cls model0 E. eexists. split; [reflexivity |].
    unfold serves, model_client_from.
    cbn [ProcessingModel.conn peer outgoing nread].
    rewrite E. repeat split.
  - intros cls e inbox E. unfold model_client_from. now rewrite E.
Qed.

End Construction.

Section HostedBaseModel.

Context {O : Objects} {B : Type} `{TransitionBuffer B}.

Variable sample_buffer_capacity : Z.

Lemma base_model_loop (cs : list Command) :
  (forall b i o a r l, exists b', record_step b i o a r l = inr b') ->
  forall f : frame B unit,
    forallb (fun c => negb (is_quit c)) cs = true ->
    sample_after_infer (bound (ids f) && bound (obs f) && bound (acts f)) cs
    = true ->
    exists t f',
      loop sample_buffer_capacity (map encode cs) f = (t, Waiting f') /\
      sends t = map base_answer cs.
Proof.
  intro Rec.
  induction cs as [| c cs IH]; intros f NQ SI.
  - exists [], f. split; reflexivity.
  - cbn [forallb] in NQ. apply andb_prop in NQ as [NQ1 NQ2].
    cbn [map loop].
    destruct f as [[] b o i a].
    destruct c as [o' i' p e | rw al | pe | d ep | d ep n |];
      cbn [sample_after_infer obs ids acts] in SI; try discriminate NQ1.
    + rewrite dispatch_infer. cbn [model sample_buffer obs ids acts BaseModel.infer_action BaseModel_default BaseModel.default].
      destruct (IH (Frame tt b (Some o') (Some i') (Some VNone)) NQ2 SI)
        as (t & f' & L & S).
      rewrite L. eexists _, _. split; [reflexivity |].
      cbn [map base_answer]. rewrite <- S. reflexivity.
    + apply andb_prop in SI as [Bd SI].
      destruct i as [i |]; [| discriminate Bd].
      destruct o as [o |]; [| discriminate Bd].
      destruct a as [a |]; [| discriminate Bd].
      rewrite dispatch_sample. cbn [model sample_buffer obs ids acts].
      destruct (Rec b i o a rw al) as [b' ->].
      destruct (IH (Frame tt b' (Some o) (Some i) (Some a)) NQ2 SI)
        as (t & f' & L & S).
      rewrite L. eexists _, _. split; [reflexivity |].
      cbn [map base_answer]. rewrite <- S. reflexivity.
    + rewrite dispatch_train. cbn [model sample_buffer obs ids acts BaseModel.train BaseModel_default BaseModel.default].
      destruct (IH (Frame tt (EpisodesBuffer sample_buffer_capacity) o i a) NQ2 SI)
        as (t & f' & L & S).
      rewrite L. eexists _, _. split; [reflexivity |].
      cbn [map base_answer]. rewrite <- S. reflexivity.
    + rewrite dispatch_save. cbn [model sample_buffer obs ids acts BaseModel.save BaseModel_default BaseModel.default].
      destruct (IH (Frame tt b o i a) NQ2 SI) as (t & f' & L & S).
      rewrite L. eexists _, _. split; [reflexivity |].
      cbn [map base_answer]. rewrite <- S. reflexivity.
    + rewrite dispatch_load. cbn [model sample_buffer obs ids acts BaseModel.load BaseModel_default BaseModel.default].
      destruct (IH (Frame tt b o i a) NQ2 SI) as (t & f' & L & S).
      rewrite L. eexists _, _. split; [reflexivity |].
      cbn [map base_answer]. rewrite <- S. reflexivity.
Qed.

(** X19.  A worker that hosts [BaseModel] itself, with a buffer whose
    [record_step] does not raise, answers every sequence of commands other
    than Quit in which no Sample comes before the first Infer: None to every
    Infer, the tuple (0, 0) to every Train, the completion marker to the
    rest; and it waits for more. *)
Theorem hosted_base_model_answers (cs : list Command) :
  (forall b i o a r l, exists b', record_step (B:=B) b i o a r l = inr b') ->
  forallb (fun c => negb (is_quit c)) cs = true ->
  sample_after_infer false cs = true ->
  sends (fst (model_client (M:=unit) (map encode cs) sample_buffer_capacity tt))
  = map base_answer cs /\
  exists f,
    snd (model_client (M:=unit) (map encode cs) sample_buffer_capacity tt)
    = Waiting f.
Proof.
  intros Rec NQ SI.
  destruct (base_model_loop cs Rec
              (Frame tt (EpisodesBuffer sample_buffer_capacity) None None None)
              NQ SI) as (t & f' & L & S).
  unfold model_client. rewrite L. cbn [fst snd].
  split; [exact S | now exists f'].
Qed.

End HostedBaseModel.

(** * The properties on the running example *)

#[local] Existing Instance vectors.
#[local] Existing Instance countdown.

Lemma one_response_per_command_witness :
  exists (rs : list Response) (f : frame ListBuffer nat),
    snd (model_client (map encode example_commands) 2 10) = Waiting f /\
    answered_in_order (model_client (map encode example_commands) 2 10)
      example_commands (map wire rs) /\
    Forall2 answers example_commands rs /\
    run 2 (State 10 (EpisodesBuffer 2) None) example_commands
    = Some (rs, abstract f).
Proof.
  apply (one_response_per_command 2 10 example_commands).
  - reflexivity.
  - reflexivity.
  - cbn. exact I.
Defined.

(** C1 as stated fails: a Sample command that arrives first is a recognized
    command other than Quit, and the worker crashes on it without sending
    anything. *)
Lemma one_response_per_command_counterexample :
  let cs := [Sample (VObj 2) (VObj 3)] in
  forallb (fun c => negb (is_quit c)) cs = true /\
  model_client (B:=ListBuffer) (M:=unit) (map encode cs) 2 tt
  = ([NewBuffer 2; Recv (encode (Sample (VObj 2) (VObj 3)))],
     Crashed (UnboundLocalError "ids")) /\
  ~ exists rs,
      answered_in_order
        (model_client (B:=ListBuffer) (M:=unit) (map encode cs) 2 tt) cs rs.
Proof.
  cbv zeta. split; [reflexivity |]. split; [reflexivity |].
  intros (rs & L & C).
  destruct rs as [| r rs]; [discriminate L |].
  cbn in C. discriminate C.
Qed.

Lemma train_resets_buffer_witness :
  dispatch 2 (encode (Train (VInt 5000))) example_frame =
  ([CallTrain (sample_buffer example_frame) (VInt 5000);
    NewBuffer 2;
    Send (VTuple [VInt 0; VInt 0])],
   inr (Continue,
        Frame tt (EpisodesBuffer 2) (obs example_frame) (ids example_frame)
          (acts example_frame)))
  /\
  forall (i o a rewards alives print_every' : value) (b : ListBuffer),
    ids example_frame = Some i -> obs example_frame = Some o ->
    acts example_frame = Some a ->
    record_step (EpisodesBuffer 2) i o a rewards alives = inr b ->
    train_calls
      (fst (loop 2
              (map encode [Train (VInt 5000); Sample rewards alives;
                           Train print_every']) example_frame))
    = [(sample_buffer example_frame, VInt 5000); (b, print_every')].
Proof.
  apply (train_resets_buffer 2 (VInt 5000) example_frame (VInt 0) (VInt 0) tt).
  reflexivity.
Defined.

Lemma sample_records_last_infer_witness :
  dispatch 2 (encode (Sample (VObj 2) (VObj 3)))
    (Frame tt (Buffer 2 []) (Some (VObj 0)) (Some (VObj 1)) (Some VNone)) =
  match record_step (Buffer 2 []) (VObj 1) (VObj 0) VNone (VObj 2) (VObj 3) with
  | inr b =>
      ([CallRecord (VObj 1) (VObj 0) VNone (VObj 2) (VObj 3); Send (VStr "done")],
       inr (Continue, Frame tt b (Some (VObj 0)) (Some (VObj 1)) (Some VNone)))
  | inl x => ([CallRecord (VObj 1) (VObj 0) VNone (VObj 2) (VObj 3)], inl x)
  end.
Proof.
  apply (sample_records_last_infer 2 example_frame
           (Frame tt (Buffer 2 []) (Some (VObj 0)) (Some (VObj 1)) (Some VNone))
           (VObj 0) (VObj 1) (VStr "e_greedy") (VInt 0) VNone tt
           (map encode [Train (VInt 5000); Save (VStr "/tmp/x") (VInt 5)])
           [Recv (encode (Infer (VObj 0) (VObj 1) (VStr "e_greedy") (VInt 0)));
            CallInfer (VObj 0) (VObj 1) (VStr "e_greedy") (VInt 0);
            Send VNone;
            Recv (encode (Train (VInt 5000)));
            CallTrain (sample_buffer example_frame) (VInt 5000);
            NewBuffer 2;
            Send (VTuple [VInt 0; VInt 0]);
            Recv (encode (Save (VStr "/tmp/x") (VInt 5)));
            CallSave (VStr "/tmp/x") (VInt 5);
            Send (VStr "done")]
           (VObj 2) (VObj 3)).
  - reflexivity.
  - reflexivity.
  - reflexivity.
Defined.

Lemma sample_before_infer_crashes_witness :
  model_client (B:=ListBuffer) (M:=unit)
    ([encode (Train (VInt 5000))]
       ++ encode (Sample (VObj 2) (VObj 3)) :: [encode (Train (VInt 1))]) 2 tt
  = ([NewBuffer 2; Recv (encode (Train (VInt 5000)));
      CallTrain (Buffer 2 []) (VInt 5000); NewBuffer 2;
      Send (VTuple [VInt 0; VInt 0])]
       ++ [Recv (encode (Sample (VObj 2) (VObj 3)))],
     Crashed (UnboundLocalError "ids")) /\
  sends (fst (model_client (B:=ListBuffer) (M:=unit)
                ([encode (Train (VInt 5000))]
                   ++ encode (Sample (VObj 2) (VObj 3)) :: [encode (Train (VInt 1))])
                2 tt))
  = sends (B:=ListBuffer)
      [NewBuffer 2; Recv (encode (Train (VInt 5000)));
       CallTrain (Buffer 2 []) (VInt 5000); NewBuffer 2;
       Send (VTuple [VInt 0; VInt 0])] /\
  (@None value = None /\ @None value = None /\ @None value = None).
Proof.
  apply (sample_before_infer_crashes 2 tt [encode (Train (VInt 5000))]
           [encode (Train (VInt 1))] (VObj 2) (VObj 3)
           [NewBuffer 2; Recv (encode (Train (VInt 5000)));
            CallTrain (Buffer 2 []) (VInt 5000); NewBuffer 2;
            Send (VTuple [VInt 0; VInt 0])]
           (Frame tt (Buffer 2 []) None None None)).
  - reflexivity.
  - reflexivity.
Defined.

(** C4 as stated fails: after an [infer_action] call, the command that
    [sample_step] sends holds the rewards and the alive flags only; the ids,
    the observation and the actions of the call are not in it. *)
Lemma sample_step_payload_counterexample :
  exists self1 cmd,
    ProcessingModel.infer_action (VObj 0) (VObj 1) (VStr "e_greedy") (VInt 0)
      true example_handle
    = ([Put (encode (Infer (VObj 0) (VObj 1) (VStr "e_greedy") (VInt 0)));
        Get VNone],
       inr (VNone, self1)) /\
    puts (fst (ProcessingModel.sample_step (VObj 2) (VObj 3) true self1)) = [cmd] /\
    ~ sample_command_carries cmd (VObj 1) (VObj 0) VNone (VObj 2) (VObj 3).
Proof.
  eexists _, _. split; [reflexivity |]. split; [reflexivity |].
  intros (payload & E & Hids & _).
  injection E as <-.
  destruct Hids as [E | [E | []]]; discriminate E.
Qed.





Lemma nonblocking_calls_do_not_read_witness :
  pending (after_send (ProcessingModel.conn example_handle)
             (encode (Train (VInt 5000)))) = [VTuple [VInt 0; VInt 0]] /\
  bind (ProcessingModel.train (VInt 5000) false)
    (fun _ => ProcessingModel.fetch_train) example_handle
  = ([Put (encode (Train (VInt 5000))); Get (VTuple [VInt 0; VInt 0])],
     inr (VTuple [VInt 0; VInt 0],
          ProcessingModel.Self
            (after_recv
               (after_send (ProcessingModel.conn example_handle)
                  (encode (Train (VInt 5000))))))).
Proof.
  apply (proj2 (proj2 (proj2 (proj2
                  (nonblocking_calls_do_not_read 2 tt example_handle
                     (VObj 0) (VObj 1) (VStr "e_greedy") (VInt 0) (VInt 5000))))
                  (Frame tt (Buffer 2 []) None None None)
                  ltac:(repeat split))
           (VInt 0) (VInt 0) tt).
  reflexivity.
Defined.

(** C10 as stated fails in its last part: the answer left pending by a
    non-blocking [train] is taken by a later blocking [infer_action], which
    returns train's (loss, value) as if it were the actions; none of
    [fetch_action], [fetch_train] and [check_done] was called. *)
Lemma nonblocking_calls_do_not_read_counterexample :
  exists self1 self2,
    ProcessingModel.train (VInt 5000) false example_handle
    = ([Put (encode (Train (VInt 5000)))], inr (VNone, self1)) /\
    pending (ProcessingModel.conn self1) = [VTuple [VInt 0; VInt 0]] /\
    ProcessingModel.infer_action (VObj 0) (VObj 1) (VStr "e_greedy") (VInt 0)
      true self1
    = ([Put (encode (Infer (VObj 0) (VObj 1) (VStr "e_greedy") (VInt 0)));
        Get (VTuple [VInt 0; VInt 0])],
       inr (VTuple [VInt 0; VInt 0], self2)) /\
    pending (ProcessingModel.conn self2) = [VNone].
Proof.
  eexists _, _. repeat split.
Qed.

Lemma stopped_worker_ignores_later_commands_witness :
  loop 2 ([encode Quit] ++ [encode (Train (VInt 1))]) example_frame
  = loop 2 [encode Quit] example_frame.
Proof.
  apply (stopped_worker_ignores_later_commands 2 [encode Quit]
           [encode (Train (VInt 1))] example_frame).
  intros f' E. discriminate E.
Defined.

Lemma carried_step_bound_iff_act_seen_witness :
  bound (Some (VObj 0)) = existsb is_act (map encode example_commands) /\
  bound (Some (VObj 1)) = existsb is_act (map encode example_commands) /\
  bound (Some VNone) = existsb is_act (map encode example_commands).
Proof.
  apply (carried_step_bound_iff_act_seen 2 tt (map encode example_commands)
           (fst (model_client (B:=ListBuffer) (map encode example_commands) 2 tt))
           (Frame tt (Buffer 2 []) (Some (VObj 0)) (Some (VObj 1)) (Some VNone))).
  reflexivity.
Defined.

Lemma buffer_is_fresh_plus_recorded_steps_witness :
  (forall b0 : ListBuffer,
      replay b0
        (fst (model_client (M:=unit)
                (map encode [Infer (VObj 0) (VObj 1) (VStr "greedy") (VInt 0);
                             Sample (VObj 2) (VObj 3)]) 2 tt))
      = inr (Buffer 2 [Step (VObj 1) (VObj 0) VNone (VObj 2) (VObj 3)])) /\
  (forall c,
      In (NewBuffer c)
        (fst (model_client (B:=ListBuffer) (M:=unit)
                (map encode [Infer (VObj 0) (VObj 1) (VStr "greedy") (VInt 0);
                             Sample (VObj 2) (VObj 3)]) 2 tt)) ->
      c = 2%Z).
Proof.
  apply (buffer_is_fresh_plus_recorded_steps 2 tt
           (map encode [Infer (VObj 0) (VObj 1) (VStr "greedy") (VInt 0);
                        Sample (VObj 2) (VObj 3)])
           (fst (model_client (B:=ListBuffer) (M:=unit)
                   (map encode [Infer (VObj 0) (VObj 1) (VStr "greedy") (VInt 0);
                                Sample (VObj 2) (VObj 3)]) 2 tt))
           (Frame tt (Buffer 2 [Step (VObj 1) (VObj 0) VNone (VObj 2) (VObj 3)])
              (Some (VObj 0)) (Some (VObj 1)) (Some VNone))).
  reflexivity.
Defined.

Lemma malformed_command_crashes_worker_witness :
  loop 2 (VList [] :: [encode Quit]) example_frame
  = ([Recv (VList [])], Crashed IndexError) /\
  loop 2 (VList [VStr "act"; VObj 0] :: [encode Quit]) example_frame
  = ([Recv (VList [VStr "act"; VObj 0])], Crashed IndexError).
Proof.
  split.
  - apply (proj1 (malformed_command_crashes_worker 2 [encode Quit] example_frame)).
    reflexivity.
  - apply (proj1 (proj2 (malformed_command_crashes_worker 2 [encode Quit]
                           example_frame)) "act" [VObj 0]).
    + cbn. tauto.
    + cbn. lia.
Defined.

Lemma extra_payload_is_ignored_witness :
  dispatch 2 (VList ([VStr "sample"; VObj 2; VObj 3] ++ [VInt 1])) example_frame
  = dispatch 2 (encode (Sample (VObj 2) (VObj 3))) example_frame /\
  dispatch 2 (VTuple ([VStr "sample"; VObj 2; VObj 3] ++ [VInt 1])) example_frame
  = dispatch 2 (encode (Sample (VObj 2) (VObj 3))) example_frame.
Proof.
  apply (extra_payload_is_ignored 2 (Sample (VObj 2) (VObj 3))
           [VStr "sample"; VObj 2; VObj 3] [VInt 1] example_frame).
  reflexivity.
Defined.

Lemma capability_failure_crashes_worker_witness :
  loop (M:=nat) 2 (encode (Train (VInt 5000)) :: [encode Quit])
    (Frame 0 (Buffer 2 []) None None None)
  = ([Recv (encode (Train (VInt 5000))); CallTrain (Buffer 2 []) (VInt 5000)],
     Crashed (ModelError 1)).
Proof.
  apply (proj1 (proj2 (capability_failure_crashes_worker (M:=nat) 2
                         [encode Quit]
                         (Frame 0 (Buffer 2 []) None None None)
                         (ModelError 1)))).
  reflexivity.
Defined.

Lemma blocking_infer_action_round_trip_witness :
  ProcessingModel.infer_action (VObj 0) (VObj 1) (VStr "e_greedy") (VInt 0)
    true example_handle
  = ([Put (encode (Infer (VObj 0) (VObj 1) (VStr "e_greedy") (VInt 0)));
      Get VNone],
     inr (VNone,
          ProcessingModel.Self
            (after_recv
               (after_send (ProcessingModel.conn example_handle)
                  (encode (Infer (VObj 0) (VObj 1) (VStr "e_greedy") (VInt 0))))))).
Proof.
  apply (blocking_infer_action_round_trip 2 tt example_handle
           (Frame tt (Buffer 2 []) None None None)
           (VObj 0) (VObj 1) (VStr "e_greedy") (VInt 0) VNone tt).
  - repeat split.
  - reflexivity.
Defined.

Lemma blocking_train_round_trip_witness :
  ProcessingModel.train (VInt 5000) true example_handle
  = ([Put (encode (Train (VInt 5000))); Get (VTuple [VInt 0; VInt 0])],
     inr (VTuple [VInt 0; VInt 0],
          ProcessingModel.Self
            (after_recv
               (after_send (ProcessingModel.conn example_handle)
                  (encode (Train (VInt 5000))))))).
Proof.
  apply (blocking_train_round_trip 2 tt example_handle
           (Frame tt (Buffer 2 []) None None None)
           (VInt 5000) (VInt 0) (VInt 0) tt).
  - repeat split.
  - reflexivity.
Defined.

Lemma blocking_sample_step_round_trip_witness :
  let self :=
    ProcessingModel.Self
      (after_recv
         (after_send (ProcessingModel.conn example_handle)
            (encode (Infer (VObj 0) (VObj 1) (VStr "e_greedy") (VInt 0))))) in
  ProcessingModel.sample_step (VObj 2) (VObj 3) true self
  = ([Put (encode (Sample (VObj 2) (VObj 3))); Get (VStr "done")],
     inr (VNone,
          ProcessingModel.Self
            (after_recv
               (after_send (ProcessingModel.conn self)
                  (encode (Sample (VObj 2) (VObj 3))))))).
Proof.
  cbv zeta.
  apply (blocking_sample_step_round_trip 2 tt
           (ProcessingModel.Self
              (after_recv
                 (after_send (ProcessingModel.conn example_handle)
                    (encode (Infer (VObj 0) (VObj 1) (VStr "e_greedy") (VInt 0))))))
           (Frame tt (Buffer 2 []) (Some (VObj 0)) (Some (VObj 1)) (Some VNone))
           (VObj 1) (VObj 0) VNone (VObj 2) (VObj 3)
           (Buffer 2 [Step (VObj 1) (VObj 0) VNone (VObj 2) (VObj 3)])).
  - repeat split.
  - reflexivity.
  - reflexivity.
  - reflexivity.
  - reflexivity.
Defined.

Lemma blocking_save_load_round_trip_witness :
  ProcessingModel.save (VStr "/tmp/x") (VInt 5) true example_handle
  = ([Put (encode (Save (VStr "/tmp/x") (VInt 5))); Get (VStr "done")],
     inr (VNone,
          ProcessingModel.Self
            (after_recv
               (after_send (ProcessingModel.conn example_handle)
                  (encode (Save (VStr "/tmp/x") (VInt 5))))))).
Proof.
  apply (proj1 (blocking_save_load_round_trip 2 tt example_handle
                  (Frame tt (Buffer 2 []) None None None)
                  (VStr "/tmp/x") (VInt 5) VNone tt
                  ltac:(repeat split))).
  reflexivity.
Defined.

Lemma sample_step_before_infer_gets_no_reply_witness :
  ProcessingModel.sample_step (VObj 2) (VObj 3) true example_handle
  = ([Put (encode (Sample (VObj 2) (VObj 3)))], inl NoReply).
Proof.
  apply (sample_step_before_infer_gets_no_reply 2 tt example_handle
           (Frame tt (Buffer 2 []) None None None) (VObj 2) (VObj 3)).
  - repeat split.
  - reflexivity.
Defined.

Lemma answers_are_not_matched_to_calls_witness :
  bind (ProcessingModel.train (VInt 5000) false)
    (fun _ => ProcessingModel.check_done) example_handle
  = ([Put (encode (Train (VInt 5000))); Get (VTuple [VInt 0; VInt 0])],
     inl (Raise AssertionError)).
Proof.
  apply (answers_are_not_matched_to_calls 2 tt example_handle
           (Frame tt (Buffer 2 []) None None None)
           (VInt 5000) (VInt 0) (VInt 0) (VStr "/tmp/x") (VInt 5) tt tt).
  - repeat split.
  - reflexivity.
  - reflexivity.
Defined.

Lemma construct_starts_waiting_worker_witness :
  exists self,
    construct (B:=ListBuffer) (VObj 10) (VObj 11) (VStr "predator") 2
      (Some (fun _ : dict => inr tt)) [("lr", VObj 3)]
    = inr self /\
    serves 2 tt self (Frame tt (EpisodesBuffer 2) None None None).
Proof.
  apply (proj1 (proj2 (construct_starts_waiting_worker (B:=ListBuffer)
                         (VObj 10) (VObj 11) (VStr "predator") 2
                         [("lr", VObj 3)]))).
  reflexivity.
Defined.

Lemma hosted_base_model_answers_witness :
  sends (fst (model_client (B:=ListBuffer) (M:=unit)
                (map encode example_commands) 2 tt))
  = map base_answer example_commands /\
  exists f,
    snd (model_client (B:=ListBuffer) (M:=unit)
           (map encode example_commands) 2 tt)
    = Waiting f.
Proof.
  apply (hosted_base_model_answers (B:=ListBuffer) 2 example_commands).
  - intros. eexists. reflexivity.
  - reflexivity.
  - reflexivity.
Defined.
